(** * The e-mail reminder job of the questionnaire application

    A shallow embedding of [questionnaire/emails.py]: the run-creation step
    [_new_runinfo], the delivery of one e-mail [_send_email] and the batch
    job [send_emails], over an explicit model of the relational store, of
    Python's exceptions and of the name space of the module.

    Conventions.
    - Integers are [Z]; strings are [string] (read as UTF-8 bytes).
    - Points in time are microseconds since the epoch ([Z]);
      [time.time()] and [time.mktime] are floats in the source and are
      read at this resolution.
    - A computation is a function from the state (the store and the list
      of delivery calls made so far) to a new state and either a value or
      a raised exception.  What was written to the store before an
      exception stays written: the job opens no transaction.
    - What the outside world answers (the clock, the random digest, the
      template engine, the mail server) is read from an [Env]. *)

From Stdlib Require Import ZArith List String Ascii Bool Lia Sorted.
From Stdlib Require Import DecimalString DecimalZ DecimalPos.
Import ListNotations.

Local Open Scope string_scope.
Local Open Scope list_scope.
Local Open Scope Z_scope.

(** String concatenation, Python's [+] on [str]. *)
Notation "a +++ b" := (String.append a b) (at level 60, right associativity).

(* ------------------------------------------------------------------ *)
(** ** Exceptions and results *)

(** The classes of exception the job meets.  [NonException] stands for
    the classes that derive from [BaseException] but not from
    [Exception] ([KeyboardInterrupt], [SystemExit]). *)
Inductive ExcClass : Type :=
| SMTPRecipientsRefused
| SMTPHeloError
| SMTPSenderRefused
| SMTPDataError
| NameError
| AttributeError
| ValueError
| Http404
| DoesNotExist
| MultipleObjectsReturned
| PlainException
| OtherException (name : string)
| NonException (name : string).

(** An exception object: its class and [str(e)]. *)
Record PyExc : Type := mkExc { exc_class : ExcClass; exc_str : string }.

(** [isinstance(e, Exception)]: what [except Exception] catches. *)
Definition is_Exception (e : PyExc) : bool :=
  match exc_class e with
  | NonException _ => false
  | _ => true
  end.

Inductive Py (A : Type) : Type :=
| Ret (a : A)
| Raise (e : PyExc).
Arguments Ret {A} a.
Arguments Raise {A} e.

(* ------------------------------------------------------------------ *)
(** ** Strings *)

Definition str_of_Z (z : Z) : string := NilZero.string_of_int (Z.to_int z).

(** [s.startswith(p)] *)
Definition startswith (s p : string) : bool := String.prefix p s.

(** [needle in hay] *)
Fixpoint contains (needle hay : string) : bool :=
  String.prefix needle hay ||
  match hay with
  | EmptyString => false
  | String _ rest => contains needle rest
  end.

Definition newline : ascii := Ascii.ascii_of_nat 10.

(** [s.split("\n", 1)]: [None] when [s] holds no newline (the list has
    one element), else the text before and after the first newline. *)
Fixpoint split_first_line (s : string) : option (string * string) :=
  match s with
  | EmptyString => None
  | String c rest =>
      if Ascii.eqb c newline then Some (EmptyString, rest)
      else match split_first_line rest with
           | Some (l, r) => Some (String c l, r)
           | None => None
           end
  end.

(** [sep.join(lines)] *)
Fixpoint join (sep : string) (lines : list string) : string :=
  match lines with
  | [] => ""
  | [l] => l
  | l :: rest => l +++ sep +++ join sep rest
  end.

(** [s[:n]] *)
Definition take_chars (n : nat) (s : string) : string := String.substring 0 n s.

(* ------------------------------------------------------------------ *)
(** ** Dates *)

Record Date : Type := mkDate { year : Z; month : Z; day : Z }.

Definition is_leap (y : Z) : bool :=
  ((y mod 4 =? 0) && negb (y mod 100 =? 0)) || (y mod 400 =? 0).

Definition days_in_month (y m : Z) : Z :=
  if m =? 2 then (if is_leap y then 29 else 28)
  else if (m =? 4) || (m =? 6) || (m =? 9) || (m =? 11) then 30
  else 31.

Definition MINYEAR : Z := 1.
Definition MAXYEAR : Z := 9999.

(** A date that exists in the calendar, as every stored [nextrun] is. *)
Definition valid_date (d : Date) : bool :=
  (MINYEAR <=? year d) && (year d <=? MAXYEAR) &&
  (1 <=? month d) && (month d <=? 12) &&
  (1 <=? day d) && (day d <=? days_in_month (year d) (month d)).

(** [datetime(y, m, d)]: the constructor checks its arguments. *)
Definition datetime (y m d : Z) : Py Date :=
  if negb ((MINYEAR <=? y) && (y <=? MAXYEAR)) then
    Raise (mkExc ValueError ("year " +++ str_of_Z y +++ " is out of range"))
  else if negb ((1 <=? m) && (m <=? 12)) then
    Raise (mkExc ValueError "month must be in 1..12")
  else if negb ((1 <=? d) && (d <=? days_in_month y m)) then
    Raise (mkExc ValueError "day is out of range for month")
  else Ret (mkDate y m d).

(** [a <= b] on dates *)
Definition date_leb (a b : Date) : bool :=
  (year a <? year b) ||
  ((year a =? year b) &&
   ((month a <? month b) || ((month a =? month b) && (day a <=? day b)))).

(* ------------------------------------------------------------------ *)
(** ** The data model

    [models.py] is not part of the excerpt; the rows carry the fields
    that [emails.py] reads and writes.  A foreign key is the primary key
    of the row it points to. *)

(** Modelled from the spec: the model class [Subject] of [models.py],
    which is missing; a person with identity, names, gender, e-mail
    address, language, the date [nextrun], a [state] and a [formtype]. *)
Record Subject : Type := mkSubject {
  s_id : Z;
  s_surname : string;
  s_givenname : string;
  s_gender : string;
  s_email : string;
  s_language : string;
  s_nextrun : Date;
  s_state : string;
  s_formtype : string
}.

(** Modelled from the spec: the model class [Run] of [models.py], which
    is missing; a scheduling cycle under its run identifier. *)
Record Run : Type := mkRun { run_id : Z; run_runid : string }.

(** Modelled from the spec: the model class [Questionnaire] of
    [models.py], which is missing; a questionnaire under its name. *)
Record Questionnaire : Type := mkQuestionnaire { q_id : Z; q_name : string }.

(** Modelled from the spec: the model class [QuestionSet] of
    [models.py], which is missing; a set of questions of one
    questionnaire, with its sort key. *)
Record QuestionSet : Type := mkQuestionSet {
  qs_id : Z;
  qs_questionnaire : Z;
  qs_sortid : Z
}.

(** Modelled from the spec: the model class [RunInfo] of [models.py],
    which is missing; one subject in one run, with the random token, the
    count of e-mails (0 never sent, -1 suppressed), the time of the last
    e-mail, the status text and the question set, the last three of
    which may be unset. *)
Record RunInfo : Type := mkRunInfo {
  ri_id : Z;
  ri_subject : Z;
  ri_run : Z;
  ri_random : string;
  ri_emailcount : Z;
  ri_emailsent : option Z;
  ri_lastemailerror : option string;
  ri_questionset : option Z;
  ri_created : Z
}.

Definition set_random (r : RunInfo) (v : string) : RunInfo :=
  mkRunInfo (ri_id r) (ri_subject r) (ri_run r) v (ri_emailcount r)
            (ri_emailsent r) (ri_lastemailerror r) (ri_questionset r) (ri_created r).

Definition set_emailcount (r : RunInfo) (v : Z) : RunInfo :=
  mkRunInfo (ri_id r) (ri_subject r) (ri_run r) (ri_random r) v
            (ri_emailsent r) (ri_lastemailerror r) (ri_questionset r) (ri_created r).

Definition set_emailsent (r : RunInfo) (v : option Z) : RunInfo :=
  mkRunInfo (ri_id r) (ri_subject r) (ri_run r) (ri_random r) (ri_emailcount r)
            v (ri_lastemailerror r) (ri_questionset r) (ri_created r).

Definition set_lastemailerror (r : RunInfo) (v : option string) : RunInfo :=
  mkRunInfo (ri_id r) (ri_subject r) (ri_run r) (ri_random r) (ri_emailcount r)
            (ri_emailsent r) v (ri_questionset r) (ri_created r).

Definition set_questionset (r : RunInfo) (v : option Z) : RunInfo :=
  mkRunInfo (ri_id r) (ri_subject r) (ri_run r) (ri_random r) (ri_emailcount r)
            (ri_emailsent r) (ri_lastemailerror r) v (ri_created r).

Definition set_nextrun (s : Subject) (d : Date) : Subject :=
  mkSubject (s_id s) (s_surname s) (s_givenname s) (s_gender s) (s_email s)
            (s_language s) d (s_state s) (s_formtype s).

(** The relational store: one list of rows per table, in table order. *)
Record DB : Type := mkDB {
  subjects : list Subject;
  runs : list Run;
  runinfos : list RunInfo;
  questionnaires : list Questionnaire;
  questionsets : list QuestionSet
}.

(** The state of a computation: the store, and the [RunInfo] objects
    handed to [_send_email] so far, latest first. *)
Record State : Type := mkState { st_db : DB; st_calls : list RunInfo }.

Definition with_runs (db : DB) (v : list Run) : DB :=
  mkDB (subjects db) v (runinfos db) (questionnaires db) (questionsets db).

Definition with_runinfos (db : DB) (v : list RunInfo) : DB :=
  mkDB (subjects db) (runs db) v (questionnaires db) (questionsets db).

Definition with_subjects (db : DB) (v : list Subject) : DB :=
  mkDB v (runs db) (runinfos db) (questionnaires db) (questionsets db).

(* ------------------------------------------------------------------ *)
(** ** Computations *)

Definition M (A : Type) : Type := State -> State * Py A.

Definition ret {A} (a : A) : M A := fun st => (st, Ret a).

Definition raise {A} (e : PyExc) : M A := fun st => (st, Raise e).

Definition bind {A B} (m : M A) (k : A -> M B) : M B :=
  fun st =>
    match m st with
    | (st', Ret a) => k a st'
    | (st', Raise e) => (st', Raise e)
    end.

Definition lift {A} (p : Py A) : M A := fun st => (st, p).

(** [try: body / except <caught>: handler]; an exception that the clause
    does not name goes on to the caller. *)
Definition try_except {A} (body : M A) (caught : PyExc -> bool)
           (handler : PyExc -> M A) : M A :=
  fun st =>
    match body st with
    | (st', Ret a) => (st', Ret a)
    | (st', Raise e) => if caught e then handler e st' else (st', Raise e)
    end.

Declare Scope py_scope.
Delimit Scope py_scope with py.
Notation "x <- c ;; k" := (bind c (fun x => k))
  (at level 100, c at next level, right associativity) : py_scope.
Notation "' pat <- c ;; k" := (bind c (fun x => match x with pat => k end))
  (at level 100, pat pattern, c at next level, right associativity) : py_scope.
Notation "c ;;; k" := (bind c (fun _ => k))
  (at level 100, right associativity) : py_scope.
Local Open Scope py_scope.

Definition get_db : M DB := fun st => (st, Ret (st_db st)).

Definition put_db (db : DB) : M unit :=
  fun st => (mkState db (st_calls st), Ret tt).

(** [for x in xs: body(x)] *)
Fixpoint for_each {A B} (xs : list A) (body : A -> M B) : M unit :=
  match xs with
  | [] => ret tt
  | x :: rest => body x ;;; for_each rest body
  end.

(* ------------------------------------------------------------------ *)
(** ** The names of the module

    A global name is looked up when the statement that uses it runs;
    a name bound neither in the module nor in the builtins raises
    [NameError]. *)

Definition lookup_global (g : list string) (name : string) : M unit :=
  if existsb (String.eqb name) g then ret tt
  else raise (mkExc NameError ("name '" +++ name +++ "' is not defined")).

(** What [emails.py] binds at module level: its imports (lines 6 to 20)
    and its five functions. *)
Definition emails_globals : list string :=
  [ "random"; "time"; "smtplib"; "datetime"; "Header"; "formataddr";
    "parseaddr"; "get_connection"; "EmailMessage"; "login_required";
    "loader"; "translation"; "settings"; "Http404"; "HttpResponse";
    "get_object_or_404"; "Subject"; "QuestionSet"; "RunInfo";
    "Questionnaire"; "md5"; "encode_emailaddress"; "_new_random";
    "_new_runinfo"; "_send_email"; "send_emails" ].

(* ------------------------------------------------------------------ *)
(** ** The object-relational layer *)

(** The primary key of a new row: one more than the largest in use. *)
Definition fresh_pk (pks : list Z) : Z := 1 + fold_right Z.max 0 pks.

(** [obj.save()] on a table: the row with the primary key of the object
    is overwritten; an object whose key is in no row is appended. *)
Fixpoint save_row {A} (pk : A -> Z) (obj : A) (rows : list A) : list A :=
  match rows with
  | [] => [obj]
  | row :: rest =>
      if pk row =? pk obj then obj :: rest
      else row :: save_row pk obj rest
  end.

Definition RunInfo_save (r : RunInfo) : M unit :=
  db <- get_db ;;
  put_db (with_runinfos db (save_row ri_id r (runinfos db))).

Definition Subject_save (s : Subject) : M unit :=
  db <- get_db ;;
  put_db (with_subjects db (save_row s_id s (subjects db))).

(** [Model.objects.get(...)] over the rows that match. *)
Definition get_one {A} (model : string) (matching : list A) : Py A :=
  match matching with
  | [row] => Ret row
  | [] => Raise (mkExc DoesNotExist
                       (model +++ " matching query does not exist."))
  | _ => Raise (mkExc MultipleObjectsReturned
                      ("get() returned more than one " +++ model))
  end.

(** [Run.objects.get_or_create(runid=runid)] *)
Definition Run_get_or_create (runid : string) : M (Run * bool) :=
  db <- get_db ;;
  match filter (fun x => String.eqb (run_runid x) runid) (runs db) with
  | [] =>
      let run := mkRun (fresh_pk (map run_id (runs db))) runid in
      put_db (with_runs db (runs db ++ [run])) ;;;
      ret (run, true)
  | [run] => ret (run, false)
  | _ => raise (mkExc MultipleObjectsReturned
                      "get() returned more than one Run")
  end.

(** [RunInfo.objects.get_or_create(run=run, subject=subject)]; a created
    row has the defaults of its columns and the time of its creation. *)
Definition RunInfo_get_or_create (now : Z) (run : Run) (subject : Subject)
  : M (RunInfo * bool) :=
  db <- get_db ;;
  match filter (fun x => (ri_run x =? run_id run) && (ri_subject x =? s_id subject))
               (runinfos db) with
  | [] =>
      let r := mkRunInfo (fresh_pk (map ri_id (runinfos db)))
                         (s_id subject) (run_id run) "" 0 None None None now in
      put_db (with_runinfos db (runinfos db ++ [r])) ;;;
      ret (r, true)
  | [r] => ret (r, false)
  | _ => raise (mkExc MultipleObjectsReturned
                      "get() returned more than one RunInfo")
  end.

(** [r.run] and [r.subject]: the rows the foreign keys point to. *)
Definition find_run (db : DB) (r : RunInfo) : Py Run :=
  get_one "Run" (filter (fun x => run_id x =? ri_run r) (runs db)).

Definition find_subject (db : DB) (r : RunInfo) : Py Subject :=
  get_one "Subject" (filter (fun x => s_id x =? ri_subject r) (subjects db)).

Definition related_run (r : RunInfo) : M Run :=
  db <- get_db ;; lift (find_run db r).

Definition related_subject (r : RunInfo) : M Subject :=
  db <- get_db ;; lift (find_subject db r).

(* ------------------------------------------------------------------ *)
(** ** The outside world *)

(** What the world answers to one call of [_send_email]:
    [me_prepare] is the text that lines 69 to 81 obtain (the language is
    activated, the template loaded and rendered, the settings read), or
    the exception raised there; [me_send] is the outcome of lines 91 to
    94, where the message is built and handed to the mail connection;
    [me_now] is [datetime.now()] of line 96. *)
Record MailEnv : Type := mkMailEnv {
  me_prepare : Py string;
  me_send : Py unit;
  me_now : Z
}.

(** [env_today] is the date of [datetime.now()] at line 134, [env_time]
    is [time.time()] at line 138, [env_digest] gives for a subject the
    hexadecimal MD5 digest computed at line 40 (it depends on
    [random.randint]), [env_created] stamps the rows created, and
    [env_mail] answers the n-th call of [_send_email]. *)
Record Env : Type := mkEnv {
  env_today : Date;
  env_time : Z;
  env_digest : Z -> string;
  env_created : Z;
  env_mail : nat -> MailEnv
}.

(* ------------------------------------------------------------------ *)
(** ** [_new_random] and [_new_runinfo] *)

(** Line 40: the subject id, a [z], and the first six characters of the
    digest. *)
Definition _new_random (env : Env) (subject : Subject) : string :=
  str_of_Z (s_id subject) +++ "z" +++ take_chars 6 (env_digest env (s_id subject)).

(** Lines 59 to 62. *)
Definition advance_nextrun (nextrun : Date) : Py Date :=
  if (month nextrun =? 2) && (day nextrun =? 29)
  then datetime (year nextrun + 1) 2 28
  else datetime (year nextrun + 1) (month nextrun) (day nextrun).

(** Lines 43 to 64, in the name space [g]. *)
Definition _new_runinfo (g : list string) (env : Env)
           (subject : Subject) (questionset : QuestionSet) : M RunInfo :=
  let nextrun := s_nextrun subject in
  let runid := str_of_Z (year nextrun) in
  lookup_global g "Run" ;;;
  '(run, _) <- Run_get_or_create runid ;;
  lookup_global g "RunInfo" ;;;
  '(r, created) <- RunInfo_get_or_create (env_created env) run subject ;;
  r <- (if created : bool
        then lookup_global g "_new_random" ;;;
             ret (set_emailcount (set_random r (_new_random env subject)) 0)
        else ret r) ;;
  let r := set_questionset r (Some (qs_id questionset)) in
  RunInfo_save r ;;;
  lookup_global g "datetime" ;;;
  nextrun' <- lift (advance_nextrun nextrun) ;;
  let subject := set_nextrun subject nextrun' in
  Subject_save subject ;;;
  ret r.

(* ------------------------------------------------------------------ *)
(** ** [_send_email] *)

(** The [except] clauses of lines 100 to 107: the status message of the
    classes they name.  No class of the four derives from another. *)
Definition smtp_reason (c : ExcClass) : option string :=
  match c with
  | SMTPRecipientsRefused => Some "SMTP Recipient Refused"
  | SMTPHeloError => Some "SMTP Helo Error"
  | SMTPSenderRefused => Some "SMTP Sender Refused"
  | SMTPDataError => Some "SMTP Data Error"
  | _ => None
  end.

(** Entering [_send_email]: the call is noted and the world's answers to
    it are selected. *)
Definition begin_delivery (env : Env) (runinfo : RunInfo) : M MailEnv :=
  fun st =>
    (mkState (st_db st) (runinfo :: st_calls st),
     Ret (env_mail env (List.length (st_calls st)))).

(** Lines 66 to 109.  The result is the [runinfo] object as the function
    leaves it, and the value returned.  Lines 83 to 88 compute the
    subject line and the two addresses out of strings, without a change
    to the [runinfo]; the texts themselves are not kept. *)
Definition _send_email (env : Env) (runinfo : RunInfo) : M (RunInfo * bool) :=
  me <- begin_delivery env runinfo ;;
  subject <- related_subject runinfo ;;
  email <- lift (me_prepare me) ;;
  match split_first_line email with
  | None => raise (mkExc ValueError
                         "not enough values to unpack (expected 2, got 1)")
  | Some (emailSubject, body) =>
      match me_send me with
      | Ret _ =>
          let runinfo := set_emailcount runinfo (1 + ri_emailcount runinfo) in
          let runinfo := set_emailsent runinfo (Some (me_now me)) in
          let runinfo := set_lastemailerror runinfo (Some "OK, accepted by server") in
          RunInfo_save runinfo ;;;
          ret (runinfo, true)
      | Raise e =>
          match smtp_reason (exc_class e) with
          | Some reason =>
              let runinfo := set_lastemailerror runinfo (Some reason) in
              RunInfo_save runinfo ;;;
              ret (runinfo, false)
          | None => raise e
          end
      end
  end.

(* ------------------------------------------------------------------ *)
(** ** [send_emails] *)

Record Request : Type := mkRequest { GET_code : option string }.

(** [getattr(settings, ..., default)]: [None] is a setting that is not
    there. *)
Record Settings : Type := mkSettings {
  EMAILCODE : option string;
  QUESTIONNAIRE_DEFAULT : option string
}.

Inductive Response : Type :=
| HttpResponse (content : string) (content_type : string)
| Text (s : string).

Definition nl : string := String newline "".

(** ["%s" % v] for a column that may be null. *)
Definition py_str (v : option string) : string :=
  match v with
  | Some s => s
  | None => "None"
  end.

(** The three shapes of log line, lines 148, 150 and 152. *)
Definition ok_line (run : Run) (subject : Subject) : string :=
  "[" +++ run_runid run +++ "] " +++ s_surname subject +++ ", "
      +++ s_givenname subject +++ ": OK".

Definition failure_line (run : Run) (subject : Subject) (r : RunInfo) : string :=
  "[" +++ run_runid run +++ "] " +++ s_surname subject +++ ", "
      +++ s_givenname subject +++ ": " +++ py_str (ri_lastemailerror r).

Definition exception_line (run : Run) (subject : Subject) (e : PyExc) : string :=
  "Exception: [" +++ run_runid run +++ "] " +++ s_surname subject +++ ": "
      +++ exc_str e.

(** [time.mktime(t.timetuple())]: a time tuple has whole seconds. *)
Definition mktime_timetuple (t : Z) : Z := (t / 1000000) * 1000000.

(** [60 * 60 * 24 * 7] seconds. *)
Definition ONE_WEEK : Z := 60 * 60 * 24 * 7 * 1000000.

(** Lines 146 to 152: the delivery to one recipient and its log line. *)
Definition attempt (env : Env) (r : RunInfo) : M (list string) :=
  try_except
    ('(r', ok) <- _send_email env r ;;
     run <- related_run r' ;;
     subject <- related_subject r' ;;
     if ok : bool
     then ret [ok_line run subject]
     else ret [failure_line run subject r'])
    is_Exception
    (fun e =>
       run <- related_run r ;;
       subject <- related_subject r ;;
       ret [exception_line run subject e]).

(** Line 145: the test that selects a recipient. *)
Definition is_due (WEEKAGO : Z) (r : RunInfo) : M bool :=
  if ri_emailcount r =? 0 then ret true
  else match ri_emailsent r with
       | None => raise (mkExc AttributeError
                   "'NoneType' object has no attribute 'timetuple'")
       | Some t => ret (mktime_timetuple t <? WEEKAGO)
       end.

(** Lines 141 to 152: the body of the loop, giving the lines it appends
    to [outlog]. *)
Definition dispatch_one (env : Env) (WEEKAGO : Z) (r : RunInfo) : M (list string) :=
  run <- related_run r ;;
  if startswith (run_runid run) "test:" then ret []
  else if ri_emailcount r =? -1 then ret []
  else
    due <- is_due WEEKAGO r ;;
    if due : bool then attempt env r else ret [].

(** Lines 140 to 152. *)
Fixpoint dispatch_loop (env : Env) (WEEKAGO : Z) (rs : list RunInfo)
         (outlog : list string) : M (list string) :=
  match rs with
  | [] => ret outlog
  | r :: rest =>
      lines <- dispatch_one env WEEKAGO r ;;
      dispatch_loop env WEEKAGO rest (outlog ++ lines)
  end.

(** Line 121: [request.GET.get('code') != getattr(settings, 'EMAILCODE',
    False)] is false only when both are the same string. *)
Definition code_matches (code emailcode : option string) : bool :=
  match code, emailcode with
  | Some c, Some k => String.eqb c k
  | _, _ => false
  end.

(** [if not qname]: [None] and the empty string are false. *)
Definition truthy (s : option string) : bool :=
  match s with
  | Some EmptyString => false
  | Some _ => true
  | None => false
  end.

(** [order_by('sortid')] *)
Fixpoint insert_by_sortid (q : QuestionSet) (l : list QuestionSet) : list QuestionSet :=
  match l with
  | [] => [q]
  | x :: rest =>
      if qs_sortid q <=? qs_sortid x then q :: l
      else x :: insert_by_sortid q rest
  end.

Definition order_by_sortid (l : list QuestionSet) : list QuestionSet :=
  fold_right insert_by_sortid [] l.

(** [QuestionSet.objects.filter(questionnaire__name=qname)] *)
Definition questionsets_named (db : DB) (qname : string) : list QuestionSet :=
  filter (fun qs =>
            existsb (fun q => (q_id q =? qs_questionnaire qs)
                              && String.eqb (q_name q) qname)
                    (questionnaires db))
         (questionsets db).

(** [Subject.objects.filter(nextrun__lte=datetime.now(), state='active')] *)
Definition viable_subjects (db : DB) (today : Date) : list Subject :=
  filter (fun s => date_leb (s_nextrun s) today && String.eqb (s_state s) "active")
         (subjects db).

(** [RunInfo.objects.filter(subject__formtype='email',
    questionset__questionnaire=questionnaire)] *)
Definition email_runinfos (db : DB) (questionnaire : Questionnaire) : list RunInfo :=
  filter (fun r =>
            existsb (fun s => (s_id s =? ri_subject r)
                              && String.eqb (s_formtype s) "email")
                    (subjects db)
            && match ri_questionset r with
               | Some k =>
                   existsb (fun qs => (qs_id qs =? k)
                                      && (qs_questionnaire qs =? q_id questionnaire))
                           (questionsets db)
               | None => false
               end)
         (runinfos db).

(** Lines 137 to 156: the dispatch of the e-mails and the report. *)
Definition dispatch (env : Env) (request : option Request)
           (questionnaire : Questionnaire) : M Response :=
  db <- get_db ;;
  let runinfos := email_runinfos db questionnaire in
  let WEEKAGO := env_time env - ONE_WEEK in
  outlog <- dispatch_loop env WEEKAGO runinfos [] ;;
  match request with
  | Some _ =>
      ret (HttpResponse ("Sent Questionnaire Emails:" +++ nl +++ "  "
                           +++ join (nl +++ "  ") outlog) "text/plain")
  | None => ret (Text (join nl outlog))
  end.

(** Lines 121 to 132: the request is checked, the questionnaire and its
    first question set are found. *)
Definition resolve (settings : Settings) (request : option Request)
           (qname : option string) : M (Questionnaire * QuestionSet) :=
  match request with
  | Some rq =>
      if negb (code_matches (GET_code rq) (EMAILCODE settings))
      then raise (mkExc Http404 "") else ret tt
  | None => ret tt
  end ;;;
  let qname := if truthy qname then qname else QUESTIONNAIRE_DEFAULT settings in
  qname <- match qname with
           | Some (String c n) => ret (String c n)
           | _ => raise (mkExc PlainException
                               "QUESTIONNAIRE_DEFAULT not in settings")
           end ;;
  db <- get_db ;;
  questionnaire <- lift (get_one "Questionnaire"
                           (filter (fun q => String.eqb (q_name q) qname)
                                   (questionnaires db))) ;;
  match order_by_sortid (questionsets_named db qname) with
  | [] => raise (mkExc PlainException
                   ("No questionsets for questionnaire '" +++ qname
                      +++ "' (in settings.py)"))
  | questionset :: _ => ret (questionnaire, questionset)
  end.

(** Lines 134 to 136: a run for every subject that is due. *)
Definition create_runs (g : list string) (env : Env) (questionset : QuestionSet)
  : M unit :=
  db <- get_db ;;
  for_each (viable_subjects db (env_today env))
           (fun s => _new_runinfo g env s questionset).

(** Lines 112 to 156, in the name space [g]. *)
Definition send_emails (g : list string) (settings : Settings) (env : Env)
           (request : option Request) (qname : option string) : M Response :=
  '(questionnaire, questionset) <- resolve settings request qname ;;
  create_runs g env questionset ;;;
  dispatch env request questionnaire.

(* ------------------------------------------------------------------ *)
(** ** Reading a turn of the loop

    The states and the outcomes that the statements below name. *)

(** The state once [_send_email] has been entered for [r]. *)
Definition entered (r : RunInfo) (st : State) : State :=
  mkState (st_db st) (r :: st_calls st).

(** The state once [r.save()] has run. *)
Definition saved (r : RunInfo) (st : State) : State :=
  mkState (with_runinfos (st_db st) (save_row ri_id r (runinfos (st_db st))))
          (st_calls st).

(** The outcomes of [_send_email], by what the world answers: the server
    accepts, the server refuses with one of the four classified errors,
    anything else is raised. *)
Inductive Outcome : Type :=
| Accepted
| Refused (reason : string)
| Failed (e : PyExc).

Definition delivery_outcome (st : State) (r : RunInfo) (me : MailEnv) : Outcome :=
  match find_subject (st_db st) r with
  | Raise e => Failed e
  | Ret _ =>
      match me_prepare me with
      | Raise e => Failed e
      | Ret email =>
          match split_first_line email with
          | None => Failed (mkExc ValueError
                              "not enough values to unpack (expected 2, got 1)")
          | Some _ =>
              match me_send me with
              | Ret _ => Accepted
              | Raise e =>
                  match smtp_reason (exc_class e) with
                  | Some reason => Refused reason
                  | None => Failed e
                  end
              end
          end
      end
  end.

(** The [runinfo] object after a delivery the server accepted. *)
Definition mark_accepted (r : RunInfo) (now : Z) : RunInfo :=
  set_lastemailerror
    (set_emailsent (set_emailcount r (1 + ri_emailcount r)) (Some now))
    (Some "OK, accepted by server").

(** The log line of an outcome. *)
Definition line_of (run : Run) (subject : Subject) (r : RunInfo) (o : Outcome)
  : string :=
  match o with
  | Accepted => ok_line run subject
  | Refused reason => failure_line run subject (set_lastemailerror r (Some reason))
  | Failed e => exception_line run subject e
  end.

(** The state an outcome leaves. *)
Definition state_of (r : RunInfo) (now : Z) (o : Outcome) (st : State) : State :=
  match o with
  | Accepted => saved (mark_accepted r now) (entered r st)
  | Refused reason => saved (set_lastemailerror r (Some reason)) (entered r st)
  | Failed _ => entered r st
  end.

(** What [except Exception] lets through. *)
Definition escapes (o : Outcome) : option PyExc :=
  match o with
  | Failed e => if is_Exception e then None else Some e
  | _ => None
  end.

(** Lines 141 to 145 as one test: the run is no test run, the recipient
    is not suppressed, and the e-mail was never sent or was last sent
    before [WEEKAGO]. *)
Definition selects (WEEKAGO : Z) (run : Run) (r : RunInfo) : bool :=
  negb (startswith (run_runid run) "test:")
  && negb (ri_emailcount r =? -1)
  && ((ri_emailcount r =? 0)
      || match ri_emailsent r with
         | Some t => mktime_timetuple t <? WEEKAGO
         | None => false
         end).

(** The name space of a module that imports [Run] as well. *)
Definition fixed_globals : list string := "Run" :: emails_globals.

(* ------------------------------------------------------------------ *)
(** ** Reading the job

    What the statements on the whole job name. *)

(** Line 121 lets a call pass: a call without request, or a request with
    the code of the settings. *)
Definition authorised (settings : Settings) (request : option Request) : bool :=
  match request with
  | Some rq => code_matches (GET_code rq) (EMAILCODE settings)
  | None => true
  end.

(** Lines 123 to 124: the name of the questionnaire the job works on. *)
Definition effective_qname (settings : Settings) (qname : option string)
  : option string :=
  if truthy qname then qname else QUESTIONNAIRE_DEFAULT settings.

(** The order of [order_by('sortid')]. *)
Definition sortid_le (a b : QuestionSet) : Prop := qs_sortid a <= qs_sortid b.

(** Lines 141 to 145 on a row of the store [db]: the run of the row is
    read and the test of the loop is passed. *)
Definition passes (db : DB) (WEEKAGO : Z) (r : RunInfo) : bool :=
  match find_run db r with
  | Ret run => selects WEEKAGO run r
  | Raise _ => false
  end.

(** The subject of the row receives e-mail and the question set of the
    row is one of the questionnaire: the filter of line 137. *)
Definition in_email_queryset (db : DB) (questionnaire : Questionnaire)
           (r : RunInfo) : Prop :=
  In r (runinfos db)
  /\ (exists s, In s (subjects db) /\ s_id s = ri_subject r
                /\ s_formtype s = "email")
  /\ (exists qs, In qs (questionsets db) /\ ri_questionset r = Some (qs_id qs)
                 /\ qs_questionnaire qs = q_id questionnaire).

(** What a batch may do to one row: nothing, the update of a delivery
    the server accepted, or a new status text. *)
Definition row_step (x x' : RunInfo) : Prop :=
  x' = x
  \/ (ri_emailcount x <> -1 /\ exists now, x' = mark_accepted x now)
  \/ (exists reason, x' = set_lastemailerror x (Some reason)).

(** A text without the letter [z], as the decimal digits of an id. *)
Definition no_z (s : string) : Prop := ~ In "z"%char (list_ascii_of_string s).

(* ------------------------------------------------------------------ *)
(** ** A sample store and world *)

Module Sample.

Definition day_us : Z := 24 * 60 * 60 * 1000000.

(** 2024-03-01 00:00:00.5, as microseconds. *)
Definition now : Z := 1709251200500000.

Definition ada : Subject :=
  mkSubject 1 "Lovelace" "Ada" "female" "ada@example.org" "en"
            (mkDate 2024 2 29) "active" "email".

Definition alan : Subject :=
  mkSubject 2 "Turing" "Alan" "male" "alan@example.org" "en"
            (mkDate 2025 6 23) "active" "email".

Definition grace : Subject :=
  mkSubject 3 "Hopper" "Grace" "female" "grace@example.org" "en"
            (mkDate 2025 12 9) "active" "email".

Definition run2023 : Run := mkRun 1 "2023".
Definition run_test : Run := mkRun 2 "test:2023".

Definition survey : Questionnaire := mkQuestionnaire 1 "yearly-survey".
Definition first_set : QuestionSet := mkQuestionSet 1 1 10.
Definition second_set : QuestionSet := mkQuestionSet 2 1 20.

(** Never mailed. *)
Definition ri_new : RunInfo :=
  mkRunInfo 1 2 1 "2zabc123" 0 None None (Some 1) 0.

(** Suppressed. *)
Definition ri_off : RunInfo :=
  mkRunInfo 2 3 1 "3zdef456" (-1) (Some 0) None (Some 1) 0.

(** Mailed once, eight days ago, in a test run. *)
Definition ri_test : RunInfo :=
  mkRunInfo 3 2 2 "2z000000" 1 (Some (now - 8 * day_us)) None (Some 1) 0.

(** Mailed once, eight days ago. *)
Definition ri_old : RunInfo :=
  mkRunInfo 4 3 1 "3z111111" 1 (Some (now - 8 * day_us)) None (Some 1) 0.

(** Counted as mailed, but without a time of mailing. *)
Definition ri_unset : RunInfo :=
  mkRunInfo 5 2 1 "2z222222" 1 None None (Some 1) 0.

(** Never mailed, in a test run. *)
Definition ri_test_new : RunInfo :=
  mkRunInfo 6 3 2 "3z333333" 0 None None (Some 1) 0.

(** Counted as mailed, without a time of mailing, in a test run. *)
Definition ri_test_unset : RunInfo :=
  mkRunInfo 7 3 2 "3z444444" 1 None None (Some 1) 0.

Definition db0 : DB :=
  mkDB [alan; grace] [run2023; run_test] [ri_new; ri_off; ri_test; ri_old]
       [survey] [second_set; first_set].

(** The same store with a subject who is due. *)
Definition db_due : DB :=
  mkDB [ada; alan; grace] [run2023; run_test] [ri_new; ri_off]
       [survey] [second_set; first_set].

(** Stores whose rows are in test runs or lack the time of mailing. *)
Definition db_test : DB :=
  mkDB [alan; grace] [run2023; run_test] [ri_test_new; ri_test]
       [survey] [second_set; first_set].

Definition db_unset : DB :=
  mkDB [alan; grace] [run2023; run_test] [ri_new; ri_unset; ri_old]
       [survey] [second_set; first_set].

Definition db_test_unset : DB :=
  mkDB [alan; grace] [run2023; run_test] [ri_test_unset; ri_new]
       [survey] [second_set; first_set].

Definition template : string := "Your questionnaire" +++ nl +++ "Dear subject, ...".

Definition accepted : MailEnv := mkMailEnv (Ret template) (Ret tt) now.

Definition refused : MailEnv :=
  mkMailEnv (Ret template) (Raise (mkExc SMTPRecipientsRefused "{}")) now.

Definition broken : MailEnv :=
  mkMailEnv (Ret "a template of one line") (Ret tt) now.

Definition env_of (mail : nat -> MailEnv) : Env :=
  mkEnv (mkDate 2024 3 1) now (fun _ => "0123456789abcdef0123456789abcdef") now mail.

Definition env_ok : Env := env_of (fun _ => accepted).
Definition env_refused : Env := env_of (fun _ => refused).
Definition env_broken : Env := env_of (fun _ => broken).

Definition job_settings : Settings := mkSettings None (Some "yearly-survey").

Definition st0 : State := mkState db0 [].
Definition st_due : State := mkState db_due [].
Definition st_test : State := mkState db_test [].
Definition st_unset : State := mkState db_unset [].
Definition st_test_unset : State := mkState db_test_unset [].

(** The cutoff of the job in this world. *)
Definition weekago : Z := now - ONE_WEEK.

End Sample.

(* ------------------------------------------------------------------ *)
(** ** Further sample settings, requests and stores *)

Module Cases.

(** Settings with a code for the web trigger. *)
Definition web_settings : Settings := mkSettings (Some "s3cret") (Some "yearly-survey").

(** Settings without code and without default questionnaire. *)
Definition bare_settings : Settings := mkSettings None None.

Definition with_code : Request := mkRequest (Some "s3cret").
Definition without_code : Request := mkRequest None.

(** A second questionnaire, which has no question set. *)
Definition empty_survey : Questionnaire := mkQuestionnaire 2 "exit-survey".

Definition db_two : DB :=
  mkDB [Sample.alan; Sample.grace] [Sample.run2023; Sample.run_test]
       [Sample.ri_new; Sample.ri_off; Sample.ri_test; Sample.ri_old]
       [Sample.survey; empty_survey] [Sample.second_set; Sample.first_set].

Definition st_two : State := mkState db_two [].

(** A job that reads the clock six days after [Sample.now]. *)
Definition env_later : Env :=
  mkEnv (mkDate 2024 3 7) (Sample.now + 6 * Sample.day_us)
        (fun _ => "0123456789abcdef0123456789abcdef")
        (Sample.now + 6 * Sample.day_us) (fun _ => Sample.accepted).

End Cases.

(* ------------------------------------------------------------------ *)
(** ** Stepping through computations *)

Lemma bind_ret {A B} (m : M A) (k : A -> M B) st st' a :
  m st = (st', Ret a) -> bind m k st = k a st'.
Proof. intros H. unfold bind. rewrite H. reflexivity. Qed.

Lemma bind_raise {A B} (m : M A) (k : A -> M B) st st' e :
  m st = (st', Raise e) -> bind m k st = (st', Raise e).
Proof. intros H. unfold bind. rewrite H. reflexivity. Qed.

Lemma try_except_ret {A} (body : M A) caught handler st st' a :
  body st = (st', Ret a) -> try_except body caught handler st = (st', Ret a).
Proof. intros H. unfold try_except. rewrite H. reflexivity. Qed.

Lemma try_except_caught {A} (body : M A) caught handler st st' e :
  body st = (st', Raise e) -> caught e = true ->
  try_except body caught handler st = handler e st'.
Proof. intros H C. unfold try_except. rewrite H, C. reflexivity. Qed.

Lemma try_except_passed {A} (body : M A) caught handler st st' e :
  body st = (st', Raise e) -> caught e = false ->
  try_except body caught handler st = (st', Raise e).
Proof. intros H C. unfold try_except. rewrite H, C. reflexivity. Qed.

Lemma related_run_eq r st : related_run r st = (st, find_run (st_db st) r).
Proof. reflexivity. Qed.

Lemma related_subject_eq r st :
  related_subject r st = (st, find_subject (st_db st) r).
Proof. reflexivity. Qed.

(* ------------------------------------------------------------------ *)
(** ** The run-creation step in the name space of the module *)

(** [emails.py] imports [Subject], [QuestionSet], [RunInfo] and
    [Questionnaire] from the models, and not [Run]. *)
Lemma Run_not_imported : existsb (String.eqb "Run") emails_globals = false.
Proof. reflexivity. Qed.

(** Line 52 raises before the store is touched. *)
Lemma new_runinfo_NameError env subject questionset st :
  _new_runinfo emails_globals env subject questionset st
  = (st, Raise (mkExc NameError "name 'Run' is not defined")).
Proof. reflexivity. Qed.

(** The first subject that is due ends the job. *)
Lemma create_runs_NameError env questionset st s rest :
  viable_subjects (st_db st) (env_today env) = s :: rest ->
  create_runs emails_globals env questionset st
  = (st, Raise (mkExc NameError "name 'Run' is not defined")).
Proof.
  intros H. unfold create_runs, bind, get_db. rewrite H. reflexivity.
Qed.

Lemma send_emails_NameError settings env request qname st
      questionnaire questionset s rest :
  resolve settings request qname st = (st, Ret (questionnaire, questionset)) ->
  viable_subjects (st_db st) (env_today env) = s :: rest ->
  send_emails emails_globals settings env request qname st
  = (st, Raise (mkExc NameError "name 'Run' is not defined")).
Proof.
  intros Hres Hdue. unfold send_emails. rewrite (bind_ret _ _ _ _ _ Hres).
  apply bind_raise. now apply create_runs_NameError with (s := s) (rest := rest).
Qed.

(** C1. Evaluation of the run-creation step as the module has it: for
    every subject the step raises [NameError] at line 52, so no [Run] is
    looked up or created for the year of [nextrun], and the table of
    runs is as before. *)
Theorem new_runinfo_gets_no_run env subject questionset st :
  snd (_new_runinfo emails_globals env subject questionset st)
  = Raise (mkExc NameError "name 'Run' is not defined")
  /\ runs (st_db (fst (_new_runinfo emails_globals env subject questionset st)))
     = runs (st_db st)
  /\ runinfos (st_db (fst (_new_runinfo emails_globals env subject questionset st)))
     = runinfos (st_db st).
Proof. rewrite new_runinfo_NameError. repeat split. Qed.

(** C2. Evaluation of the job on a store with a subject who is due on
    29 February 2024: the job ends with [NameError] and the subject's
    [nextrun] is still 29 February 2024, not 28 February 2025. *)
Theorem leap_day_subject_not_advanced :
  viable_subjects Sample.db_due (mkDate 2024 3 1) = [Sample.ada]
  /\ send_emails emails_globals Sample.job_settings Sample.env_ok None None
                 Sample.st_due
     = (Sample.st_due, Raise (mkExc NameError "name 'Run' is not defined"))
  /\ map s_nextrun (subjects Sample.db_due)
     = [mkDate 2024 2 29; mkDate 2025 6 23; mkDate 2025 12 9].
Proof. repeat split. Qed.

(** C3. Evaluation of a second call of the step for a subject and a run
    that already have their [RunInfo]: the call raises [NameError], it
    does not return the existing row. *)
Theorem second_call_returns_no_runinfo :
  filter (fun x => (ri_run x =? 1) && (ri_subject x =? 2)) (runinfos Sample.db0)
  = [Sample.ri_new]
  /\ _new_runinfo emails_globals Sample.env_ok
                  (set_nextrun Sample.alan (mkDate 2023 6 23))
                  Sample.first_set Sample.st0
     = (Sample.st0, Raise (mkExc NameError "name 'Run' is not defined")).
Proof. repeat split. Qed.

(* ------------------------------------------------------------------ *)
(** ** What [_send_email] does to the state *)

Lemma RunInfo_save_eq r st : RunInfo_save r st = (saved r st, Ret tt).
Proof. reflexivity. Qed.

Lemma save_row_In {A} (pk : A -> Z) (obj : A) rows : In obj (save_row pk obj rows).
Proof.
  induction rows as [|row rest IH]; simpl.
  - now left.
  - destruct (pk row =? pk obj); simpl; auto.
Qed.

Lemma save_row_length {A} (pk : A -> Z) (obj : A) rows :
  existsb (fun row => pk row =? pk obj) rows = true ->
  List.length (save_row pk obj rows) = List.length rows.
Proof.
  induction rows as [|row rest IH]; simpl; [discriminate|].
  destruct (pk row =? pk obj); simpl; intros H; [reflexivity|].
  now rewrite IH.
Qed.

(** The rows of [save_row] under their primary keys: the key of the
    object now gives the object, every other key what it gave. *)
Lemma save_row_other {A} (pk : A -> Z) (obj : A) rows k :
  k <> pk obj ->
  filter (fun row => pk row =? k) (save_row pk obj rows)
  = filter (fun row => pk row =? k) rows.
Proof.
  intros Hk. induction rows as [|row rest IH]; simpl.
  - destruct (pk obj =? k) eqn:E; [apply Z.eqb_eq in E; congruence | reflexivity].
  - destruct (pk row =? pk obj) eqn:E; simpl.
    + apply Z.eqb_eq in E.
      destruct (pk obj =? k) eqn:E1; [apply Z.eqb_eq in E1; congruence|].
      destruct (pk row =? k) eqn:E2; [apply Z.eqb_eq in E2; congruence|].
      reflexivity.
    + destruct (pk row =? k); [f_equal|]; apply IH.
Qed.

Lemma send_email_eq env r st :
  let me := env_mail env (List.length (st_calls st)) in
  _send_email env r st =
  match delivery_outcome st r me with
  | Accepted =>
      (saved (mark_accepted r (me_now me)) (entered r st),
       Ret (mark_accepted r (me_now me), true))
  | Refused reason =>
      (saved (set_lastemailerror r (Some reason)) (entered r st),
       Ret (set_lastemailerror r (Some reason), false))
  | Failed e => (entered r st, Raise e)
  end.
Proof.
  intros me. unfold _send_email, delivery_outcome, bind, begin_delivery,
    related_subject, get_db, lift. fold me. simpl.
  destruct (find_subject (st_db st) r) as [subject|e]; [|reflexivity].
  destruct (me_prepare me) as [email|e]; [|reflexivity].
  destruct (split_first_line email) as [[subj body]|]; [|reflexivity].
  destruct (me_send me) as [u|e]; [reflexivity|].
  destruct (smtp_reason (exc_class e)); reflexivity.
Qed.

(** Whatever the outcome, the call is noted once and only the table of
    [RunInfo] rows can change. *)
Lemma send_email_frame env r st st1 res :
  _send_email env r st = (st1, res) ->
  st_calls st1 = r :: st_calls st
  /\ runs (st_db st1) = runs (st_db st)
  /\ subjects (st_db st1) = subjects (st_db st)
  /\ questionnaires (st_db st1) = questionnaires (st_db st)
  /\ questionsets (st_db st1) = questionsets (st_db st).
Proof.
  rewrite send_email_eq.
  destruct (delivery_outcome _ _ _); intros H; inversion H; subst; cbn; auto.
Qed.

Lemma find_run_frame db db1 r : runs db1 = runs db -> find_run db1 r = find_run db r.
Proof. intros H. unfold find_run. now rewrite H. Qed.

Lemma find_subject_frame db db1 r :
  subjects db1 = subjects db -> find_subject db1 r = find_subject db r.
Proof. intros H. unfold find_subject. now rewrite H. Qed.

(* ------------------------------------------------------------------ *)
(** ** The delivery to one recipient and the loop *)

(** A lookup through a foreign key reads neither the table of [RunInfo]
    rows nor the fields that [_send_email] assigns. *)
Lemma find_run_saved db rows r r' :
  ri_run r' = ri_run r -> find_run (with_runinfos db rows) r' = find_run db r.
Proof. intros H. unfold find_run. simpl. now rewrite H. Qed.

Lemma find_subject_saved db rows r r' :
  ri_subject r' = ri_subject r ->
  find_subject (with_runinfos db rows) r' = find_subject db r.
Proof. intros H. unfold find_subject. simpl. now rewrite H. Qed.

Lemma attempt_eq env r st run subject :
  let me := env_mail env (List.length (st_calls st)) in
  let o := delivery_outcome st r me in
  find_run (st_db st) r = Ret run ->
  find_subject (st_db st) r = Ret subject ->
  attempt env r st =
  (state_of r (me_now me) o st,
   match escapes o with
   | None => Ret [line_of run subject r o]
   | Some e => Raise e
   end).
Proof.
  intros me o Hrun Hsub. unfold attempt, try_except, bind at 1.
  rewrite send_email_eq. fold me. fold o.
  destruct o as [|reason|e]; cbn [state_of escapes line_of].
  - unfold bind, related_run, related_subject, get_db, lift. simpl.
    rewrite !(find_run_saved _ _ r), !(find_subject_saved _ _ r) by reflexivity.
    now rewrite Hrun, Hsub.
  - unfold bind, related_run, related_subject, get_db, lift. simpl.
    rewrite !(find_run_saved _ _ r), !(find_subject_saved _ _ r) by reflexivity.
    now rewrite Hrun, Hsub.
  - destruct (is_Exception e); [|reflexivity].
    unfold bind, related_run, related_subject, get_db, lift. simpl.
    now rewrite Hrun, Hsub.
Qed.

(** Splits on the lookups and on the class test the goal branches on. *)
Ltac split_lookups :=
  repeat match goal with
         | |- context [find_run ?d ?x] => destruct (find_run d x); simpl
         | |- context [find_subject ?d ?x] => destruct (find_subject d x); simpl
         | |- context [is_Exception ?e] => destruct (is_Exception e); simpl
         end.

Lemma attempt_calls env r st :
  st_calls (fst (attempt env r st)) = r :: st_calls st.
Proof.
  unfold attempt, try_except, bind at 1. rewrite send_email_eq.
  destruct (delivery_outcome _ _ _) as [|reason|e];
    unfold bind, related_run, related_subject, get_db, lift, ret; simpl;
    rewrite ?(find_run_saved _ _ r), ?(find_subject_saved _ _ r) by reflexivity;
    split_lookups; reflexivity.
Qed.

(** The body of the loop, case by case. *)
Lemma dispatch_one_eq env W r st :
  dispatch_one env W r st =
  match find_run (st_db st) r with
  | Raise e => (st, Raise e)
  | Ret run =>
      if startswith (run_runid run) "test:" then (st, Ret [])
      else if ri_emailcount r =? -1 then (st, Ret [])
      else if ri_emailcount r =? 0 then attempt env r st
      else match ri_emailsent r with
           | None => (st, Raise (mkExc AttributeError
                       "'NoneType' object has no attribute 'timetuple'"))
           | Some t => if mktime_timetuple t <? W then attempt env r st
                       else (st, Ret [])
           end
  end.
Proof.
  unfold dispatch_one, bind at 1. rewrite related_run_eq.
  destruct (find_run (st_db st) r) as [run|e]; [|reflexivity].
  destruct (startswith (run_runid run) "test:"); [reflexivity|].
  destruct (ri_emailcount r =? -1); [reflexivity|].
  unfold bind, is_due.
  destruct (ri_emailcount r =? 0); [reflexivity|].
  destruct (ri_emailsent r) as [t|]; [|reflexivity].
  unfold ret. destruct (mktime_timetuple t <? W); reflexivity.
Qed.

Lemma dispatch_loop_cons env W r rest outlog st :
  dispatch_loop env W (r :: rest) outlog st =
  match dispatch_one env W r st with
  | (st', Ret lines) => dispatch_loop env W rest (outlog ++ lines) st'
  | (st', Raise e) => (st', Raise e)
  end.
Proof. reflexivity. Qed.

Lemma dispatch_one_selected env W r st run :
  find_run (st_db st) r = Ret run ->
  selects W run r = true ->
  dispatch_one env W r st = attempt env r st.
Proof.
  intros Hrun Hsel. rewrite dispatch_one_eq, Hrun. unfold selects in Hsel.
  destruct (startswith (run_runid run) "test:"); [discriminate|].
  destruct (ri_emailcount r =? -1); [discriminate|].
  destruct (ri_emailcount r =? 0); [reflexivity|].
  destruct (ri_emailsent r) as [t|]; [|discriminate].
  simpl in Hsel. now rewrite Hsel.
Qed.

(** The body of the loop by the test [selects]: a delivery, a skip, or
    the [AttributeError] of an unset [emailsent]. *)
Lemma dispatch_one_by_selects env W r st run :
  find_run (st_db st) r = Ret run ->
  dispatch_one env W r st =
  if selects W run r then attempt env r st
  else if negb (startswith (run_runid run) "test:")
          && negb (ri_emailcount r =? -1) && negb (ri_emailcount r =? 0)
          && match ri_emailsent r with None => true | Some _ => false end
       then (st, Raise (mkExc AttributeError
                          "'NoneType' object has no attribute 'timetuple'"))
       else (st, Ret []).
Proof.
  intros Hrun. rewrite dispatch_one_eq, Hrun. unfold selects.
  destruct (startswith (run_runid run) "test:"); [reflexivity|].
  destruct (ri_emailcount r =? -1); [reflexivity|].
  destruct (ri_emailcount r =? 0); [reflexivity|].
  destruct (ri_emailsent r) as [t|]; [|reflexivity].
  simpl. destruct (mktime_timetuple t <? W); reflexivity.
Qed.

(** A row of a test run is skipped, whatever its count and its time. *)
Lemma test_run_is_skipped env W r st run :
  find_run (st_db st) r = Ret run ->
  startswith (run_runid run) "test:" = true ->
  dispatch_one env W r st = (st, Ret []).
Proof. intros Hrun Htest. now rewrite dispatch_one_eq, Hrun, Htest. Qed.

Lemma dispatch_loop_app env W pre rs :
  forall outlog st,
    dispatch_loop env W (pre ++ rs) outlog st =
    match dispatch_loop env W pre outlog st with
    | (st1, Ret log1) => dispatch_loop env W rs log1 st1
    | (st1, Raise e) => (st1, Raise e)
    end.
Proof.
  induction pre as [|r pre IH]; intros outlog st; [reflexivity|].
  simpl app. rewrite !dispatch_loop_cons.
  destruct (dispatch_one env W r st) as [st' [lines|e]]; [apply IH | reflexivity].
Qed.

(** A delivery that returns appends one line. *)
Lemma attempt_one_line env r st lines :
  snd (attempt env r st) = Ret lines -> List.length lines = 1%nat.
Proof.
  unfold attempt, try_except, bind at 1. rewrite send_email_eq.
  destruct (delivery_outcome _ _ _) as [|reason|e];
    unfold bind, related_run, related_subject, get_db, lift, ret; simpl;
    rewrite ?(find_run_saved _ _ r), ?(find_subject_saved _ _ r) by reflexivity;
    split_lookups; intros H; inversion H; reflexivity.
Qed.

(** One turn of the loop calls [_send_email] for its recipient or for
    nobody, never for a suppressed recipient, and appends a line only
    with a call. *)
Lemma dispatch_one_trace env W r st :
  exists called,
    st_calls (fst (dispatch_one env W r st)) = called ++ st_calls st
    /\ (called = [] \/ (called = [r] /\ ri_emailcount r <> -1))
    /\ forall lines, snd (dispatch_one env W r st) = Ret lines ->
                     List.length lines = List.length called.
Proof.
  rewrite dispatch_one_eq.
  assert (Hskip : exists called,
             st_calls (fst (st, @Ret (list string) [])) = called ++ st_calls st
             /\ (called = [] \/ (called = [r] /\ ri_emailcount r <> -1))
             /\ forall lines, snd (st, @Ret (list string) []) = Ret lines ->
                              List.length lines = List.length called).
  { exists []. repeat split; auto. intros lines H. now inversion H. }
  assert (Hraise : forall e, exists called,
             st_calls (fst (st, @Raise (list string) e)) = called ++ st_calls st
             /\ (called = [] \/ (called = [r] /\ ri_emailcount r <> -1))
             /\ forall lines, snd (st, @Raise (list string) e) = Ret lines ->
                              List.length lines = List.length called).
  { intros e. exists []. repeat split; auto. intros lines H. discriminate H. }
  destruct (find_run (st_db st) r) as [run|e]; [|apply Hraise].
  destruct (startswith (run_runid run) "test:"); [apply Hskip|].
  destruct (ri_emailcount r =? -1) eqn:Hoff; [apply Hskip|].
  assert (Hatt : exists called,
             st_calls (fst (attempt env r st)) = called ++ st_calls st
             /\ (called = [] \/ (called = [r] /\ ri_emailcount r <> -1))
             /\ forall lines, snd (attempt env r st) = Ret lines ->
                              List.length lines = List.length called).
  { exists [r]. split; [apply attempt_calls|]. split.
    - right. split; [reflexivity|]. now apply Z.eqb_neq.
    - apply attempt_one_line. }
  destruct (ri_emailcount r =? 0); [apply Hatt|].
  destruct (ri_emailsent r) as [t|]; [|apply Hraise].
  destruct (mktime_timetuple t <? W); [apply Hatt | apply Hskip].
Qed.

(** The calls of a whole batch, latest first, and the lines it logs. *)
Lemma dispatch_loop_trace env W rs :
  forall outlog st,
  exists called,
    st_calls (fst (dispatch_loop env W rs outlog st)) = called ++ st_calls st
    /\ Forall (fun x => In x rs /\ ri_emailcount x <> -1) called
    /\ forall out, snd (dispatch_loop env W rs outlog st) = Ret out ->
                   exists lines, out = outlog ++ lines
                                 /\ List.length lines = List.length called.
Proof.
  induction rs as [|r rest IH]; intros outlog st.
  - exists []. repeat split; auto. intros out H. inversion H.
    exists []. now rewrite app_nil_r.
  - rewrite dispatch_loop_cons.
    destruct (dispatch_one_trace env W r st) as (c1 & Hc1 & Hr & Hl1).
    destruct (dispatch_one env W r st) as [st' [lines|e]]; simpl in Hc1, Hl1.
    + destruct (IH (outlog ++ lines) st') as (c2 & Hc2 & Hall & Hl2).
      exists (c2 ++ c1). split; [|split].
      * now rewrite Hc2, Hc1, app_assoc.
      * apply Forall_app. split.
        -- eapply Forall_impl; [|exact Hall]. intros x [Hin Hx]. split; simpl; auto.
        -- destruct Hr as [->|[-> Hr]]; constructor; [|constructor].
           split; simpl; auto.
      * intros out Hout. destruct (Hl2 out Hout) as (l2 & -> & Hlen).
        exists (lines ++ l2). split; [now rewrite app_assoc|].
        rewrite !length_app, Hlen, (Hl1 lines eq_refl). lia.
    + exists c1. split; [exact Hc1|]. split.
      * destruct Hr as [->|[-> Hr]]; constructor; [|constructor].
        split; simpl; auto.
      * intros out H. discriminate H.
Qed.

(* ------------------------------------------------------------------ *)
(** ** Who is e-mailed *)

(** C5. A [RunInfo] with [emailcount == -1] is never handed to
    [_send_email] and no line is logged for it, whatever its
    [emailsent]: its turn of the loop leaves the state as it is and
    appends nothing (or raises, when its run cannot be read), and in a
    whole batch it is not among the calls made, while the lines
    appended are as many as the calls. *)
Theorem suppressed_is_never_emailed env W rs outlog st r :
  In r rs ->
  ri_emailcount r = -1 ->
  (dispatch_one env W r st = (st, Ret [])
   \/ exists e, dispatch_one env W r st = (st, Raise e))
  /\ exists called,
      st_calls (fst (dispatch_loop env W rs outlog st)) = called ++ st_calls st
      /\ ~ In r called
      /\ forall out, snd (dispatch_loop env W rs outlog st) = Ret out ->
                     exists lines, out = outlog ++ lines
                                   /\ List.length lines = List.length called.
Proof.
  intros Hin Hoff. split.
  - rewrite dispatch_one_eq.
    destruct (find_run (st_db st) r) as [run|e]; [|right; now exists e].
    left. destruct (startswith (run_runid run) "test:"); [reflexivity|].
    now rewrite Hoff.
  - destruct (dispatch_loop_trace env W rs outlog st) as (called & Hc & Hall & Hl).
    exists called. split; [exact Hc|]. split; [|exact Hl].
    intros Hr. rewrite Forall_forall in Hall.
    destruct (Hall r Hr) as [_ Hne]. contradiction.
Qed.

(** The theorem on the sample store, for its suppressed row. *)
Lemma suppressed_is_never_emailed_witness :
  In Sample.ri_off (email_runinfos Sample.db0 Sample.survey)
  /\ ri_emailcount Sample.ri_off = -1
  /\ (dispatch_one Sample.env_ok Sample.weekago Sample.ri_off Sample.st0
      = (Sample.st0, Ret [])
      \/ exists e,
          dispatch_one Sample.env_ok Sample.weekago Sample.ri_off Sample.st0
          = (Sample.st0, Raise e))
  /\ exists called,
      st_calls (fst (dispatch_loop Sample.env_ok Sample.weekago
                       (email_runinfos Sample.db0 Sample.survey) [] Sample.st0))
      = called ++ st_calls Sample.st0
      /\ ~ In Sample.ri_off called
      /\ forall out,
          snd (dispatch_loop Sample.env_ok Sample.weekago
                 (email_runinfos Sample.db0 Sample.survey) [] Sample.st0) = Ret out ->
          exists lines, out = [] ++ lines
                        /\ List.length lines = List.length called.
Proof.
  assert (Hin : In Sample.ri_off (email_runinfos Sample.db0 Sample.survey))
    by (vm_compute; auto).
  assert (Hoff : ri_emailcount Sample.ri_off = -1) by reflexivity.
  split; [exact Hin|]. split; [exact Hoff|].
  exact (suppressed_is_never_emailed Sample.env_ok Sample.weekago
           (email_runinfos Sample.db0 Sample.survey) [] Sample.st0
           Sample.ri_off Hin Hoff).
Defined.

(** C6, as stated, fails on a test run: a [RunInfo] with
    [emailcount == 0] whose subject receives e-mail under the resolved
    questionnaire is among the rows of the loop, its run id starts with
    [test:], and the job ends without one call of [_send_email]. *)
Lemma never_mailed_test_run_is_skipped :
  ri_emailcount Sample.ri_test_new = 0
  /\ email_runinfos Sample.db_test Sample.survey
     = [Sample.ri_test_new; Sample.ri_test]
  /\ find_run Sample.db_test Sample.ri_test_new = Ret Sample.run_test
  /\ dispatch_one Sample.env_ok Sample.weekago Sample.ri_test_new Sample.st_test
     = (Sample.st_test, Ret [])
  /\ send_emails emails_globals Sample.job_settings Sample.env_ok None None
                 Sample.st_test
     = (Sample.st_test, Ret (Text "")).
Proof. repeat split. Qed.

(** C6, amended. A [RunInfo] with [emailcount == 0] whose run id does
    not start with [test:] is selected when the loop comes to it: its
    turn is the delivery of lines 146 to 152, and [_send_email] is
    called for it. *)
Theorem never_mailed_is_emailed env W r st run :
  find_run (st_db st) r = Ret run ->
  startswith (run_runid run) "test:" = false ->
  ri_emailcount r = 0 ->
  dispatch_one env W r st = attempt env r st
  /\ st_calls (fst (dispatch_one env W r st)) = r :: st_calls st.
Proof.
  intros Hrun Htest Hzero.
  assert (H : dispatch_one env W r st = attempt env r st).
  { apply (dispatch_one_selected env W r st run Hrun).
    unfold selects. now rewrite Htest, Hzero. }
  split; [exact H|]. rewrite H. apply attempt_calls.
Qed.

(** The theorem on the sample store, for its row that was never mailed. *)
Lemma never_mailed_is_emailed_witness :
  dispatch_one Sample.env_ok Sample.weekago Sample.ri_new Sample.st0
  = attempt Sample.env_ok Sample.ri_new Sample.st0
  /\ st_calls (fst (dispatch_one Sample.env_ok Sample.weekago Sample.ri_new
                      Sample.st0))
     = Sample.ri_new :: st_calls Sample.st0.
Proof.
  apply (never_mailed_is_emailed Sample.env_ok Sample.weekago Sample.ri_new
           Sample.st0 Sample.run2023); reflexivity.
Defined.

(* ------------------------------------------------------------------ *)
(** ** The week between two e-mails *)

Lemma ONE_WEEK_seconds : ONE_WEEK = 604800 * 1000000.
Proof. reflexivity. Qed.

(** A time tuple drops less than a second. *)
Lemma mktime_timetuple_bounds t :
  mktime_timetuple t <= t < mktime_timetuple t + 1000000.
Proof.
  unfold mktime_timetuple.
  pose proof (Z.div_mod t 1000000 ltac:(lia)) as Hdm.
  pose proof (Z.mod_pos_bound t 1000000 ltac:(lia)) as Hm.
  lia.
Qed.

(** C4, as stated, fails on a test run: the [RunInfo] was e-mailed once,
    eight days before the job read the clock, so its [emailsent] is
    older than the cutoff, and the job does not e-mail it. *)
Lemma old_test_run_is_not_resent :
  ri_emailcount Sample.ri_test = 1
  /\ ri_emailsent Sample.ri_test = Some (Sample.now - 8 * Sample.day_us)
  /\ Sample.now - 8 * Sample.day_us < Sample.now - ONE_WEEK
  /\ find_run Sample.db_test Sample.ri_test = Ret Sample.run_test
  /\ dispatch_one Sample.env_ok (Sample.now - ONE_WEEK) Sample.ri_test
                  Sample.st_test
     = (Sample.st_test, Ret [])
  /\ send_emails emails_globals Sample.job_settings Sample.env_ok None None
                 Sample.st_test
     = (Sample.st_test, Ret (Text "")).
Proof. repeat split. Qed.

(** Inside the last second the whole seconds decide: an e-mail sent
    exactly seven days before the clock was read, at half past a
    second, is sent again. *)
Lemma resent_at_seven_days_sharp :
  let r := set_emailsent Sample.ri_old (Some (Sample.now - ONE_WEEK)) in
  dispatch_one Sample.env_ok (Sample.now - ONE_WEEK) r Sample.st0
  = attempt Sample.env_ok r Sample.st0.
Proof. reflexivity. Qed.

(** C4, amended. A [RunInfo] whose run id does not start with [test:],
    whose [emailcount] is neither 0 nor -1 and whose [emailsent] is set
    is e-mailed exactly when [emailsent], cut to whole seconds, is
    earlier than the cutoff, the time the job read less 604800 seconds.
    Hence one last sent more than seven days before is sent again, one
    last sent at most seven days less a second before is not: six days
    is not, eight days is. *)
Theorem resent_after_a_week env r st run t :
  let W := env_time env - ONE_WEEK in
  find_run (st_db st) r = Ret run ->
  startswith (run_runid run) "test:" = false ->
  ri_emailcount r <> 0 ->
  ri_emailcount r <> -1 ->
  ri_emailsent r = Some t ->
  (mktime_timetuple t < W -> dispatch_one env W r st = attempt env r st)
  /\ (W <= mktime_timetuple t -> dispatch_one env W r st = (st, Ret []))
  /\ (t < env_time env - 604800 * 1000000 ->
      dispatch_one env W r st = attempt env r st)
  /\ (env_time env - 604800 * 1000000 + 1000000 <= t ->
      dispatch_one env W r st = (st, Ret []))
  /\ (t = env_time env - 6 * (24 * 3600 * 1000000) ->
      dispatch_one env W r st = (st, Ret []))
  /\ (t = env_time env - 8 * (24 * 3600 * 1000000) ->
      dispatch_one env W r st = attempt env r st).
Proof.
  intros W Hrun Htest H0 H1 Hsent.
  assert (Hyes : mktime_timetuple t < W -> dispatch_one env W r st = attempt env r st).
  { intros Hlt. rewrite dispatch_one_eq, Hrun, Htest, Hsent.
    apply Z.eqb_neq in H0, H1. rewrite H0, H1.
    apply Z.ltb_lt in Hlt. now rewrite Hlt. }
  assert (Hno : W <= mktime_timetuple t -> dispatch_one env W r st = (st, Ret [])).
  { intros Hge. rewrite dispatch_one_eq, Hrun, Htest, Hsent.
    apply Z.eqb_neq in H0, H1. rewrite H0, H1.
    apply Z.ltb_ge in Hge. now rewrite Hge. }
  pose proof (mktime_timetuple_bounds t) as Hb.
  pose proof ONE_WEEK_seconds as Hw.
  repeat split; intros; first [apply Hyes | apply Hno]; unfold W; lia.
Qed.

(** The theorem on the sample store, for its row mailed eight days ago. *)
Lemma resent_after_a_week_witness :
  dispatch_one Sample.env_ok (Sample.now - ONE_WEEK) Sample.ri_old Sample.st0
  = attempt Sample.env_ok Sample.ri_old Sample.st0.
Proof.
  refine (proj1 (resent_after_a_week Sample.env_ok Sample.ri_old Sample.st0
                   Sample.run2023 (Sample.now - 8 * Sample.day_us)
                   _ _ _ _ _) _);
    first [reflexivity | discriminate].
Defined.

(* ------------------------------------------------------------------ *)
(** ** The outcome of one delivery *)

(** C8. When the server accepts the e-mail, [_send_email] adds one to
    [emailcount], sets [emailsent] to the time it reads, sets the status
    to [OK, accepted by server], saves the [RunInfo] and returns true;
    the other fields are as they were, and the loop logs the line that
    ends in [OK] and goes on with the next recipient. *)
Theorem send_email_success env r st subject email subj body :
  let me := env_mail env (List.length (st_calls st)) in
  find_subject (st_db st) r = Ret subject ->
  me_prepare me = Ret email ->
  split_first_line email = Some (subj, body) ->
  me_send me = Ret tt ->
  exists r',
    _send_email env r st = (saved r' (entered r st), Ret (r', true))
    /\ ri_emailcount r' = ri_emailcount r + 1
    /\ ri_emailsent r' = Some (me_now me)
    /\ ri_lastemailerror r' = Some "OK, accepted by server"
    /\ (ri_id r', ri_subject r', ri_run r', ri_random r', ri_questionset r',
        ri_created r')
       = (ri_id r, ri_subject r, ri_run r, ri_random r, ri_questionset r,
          ri_created r)
    /\ In r' (runinfos (st_db (saved r' (entered r st))))
    /\ forall W run rest outlog,
        find_run (st_db st) r = Ret run ->
        selects W run r = true ->
        dispatch_loop env W (r :: rest) outlog st
        = dispatch_loop env W rest
            (outlog ++ ["[" +++ run_runid run +++ "] " +++ s_surname subject
                            +++ ", " +++ s_givenname subject +++ ": OK"])
            (saved r' (entered r st)).
Proof.
  intros me Hsub Hprep Hsplit Hsend.
  assert (Ho : delivery_outcome st r me = Accepted).
  { unfold delivery_outcome. now rewrite Hsub, Hprep, Hsplit, Hsend. }
  exists (mark_accepted r (me_now me)).
  split; [|repeat split].
  - rewrite send_email_eq. fold me. now rewrite Ho.
  - unfold mark_accepted. cbn [ri_emailcount set_lastemailerror set_emailsent set_emailcount]. lia.
  - apply save_row_In.
  - intros W run rest outlog Hrun Hsel.
    rewrite dispatch_loop_cons, (dispatch_one_selected env W r st run Hrun Hsel).
    rewrite (attempt_eq env r st run subject Hrun Hsub). fold me.
    now rewrite Ho.
Qed.

(** The theorem in the world whose server accepts. *)
Lemma send_email_success_witness :
  exists r',
    _send_email Sample.env_ok Sample.ri_new Sample.st0
    = (saved r' (entered Sample.ri_new Sample.st0), Ret (r', true))
    /\ ri_emailcount r' = ri_emailcount Sample.ri_new + 1
    /\ ri_emailsent r' = Some Sample.now
    /\ ri_lastemailerror r' = Some "OK, accepted by server".
Proof.
  destruct (send_email_success Sample.env_ok Sample.ri_new Sample.st0
              Sample.alan Sample.template "Your questionnaire"
              "Dear subject, ..." eq_refl eq_refl eq_refl eq_refl)
    as (r' & H1 & H2 & H3 & H4 & _).
  exists r'. repeat split; assumption.
Defined.

(** C7. When the server refuses with one of the four classified
    errors, [_send_email] sets [lastemailerror] to the message of the
    class, saves the [RunInfo] and returns false; [emailcount],
    [emailsent] and the other fields are as they were, and the loop
    logs the line with the message and goes on with the next
    recipient. *)
Theorem send_email_classified_failure env r st subject email subj body e :
  let me := env_mail env (List.length (st_calls st)) in
  find_subject (st_db st) r = Ret subject ->
  me_prepare me = Ret email ->
  split_first_line email = Some (subj, body) ->
  me_send me = Raise e ->
  In (exc_class e)
     [SMTPRecipientsRefused; SMTPHeloError; SMTPSenderRefused; SMTPDataError] ->
  exists reason r',
    In (exc_class e, reason)
       [(SMTPRecipientsRefused, "SMTP Recipient Refused");
        (SMTPHeloError, "SMTP Helo Error");
        (SMTPSenderRefused, "SMTP Sender Refused");
        (SMTPDataError, "SMTP Data Error")]
    /\ _send_email env r st = (saved r' (entered r st), Ret (r', false))
    /\ ri_lastemailerror r' = Some reason
    /\ ri_emailcount r' = ri_emailcount r
    /\ ri_emailsent r' = ri_emailsent r
    /\ (ri_id r', ri_subject r', ri_run r', ri_random r', ri_questionset r',
        ri_created r')
       = (ri_id r, ri_subject r, ri_run r, ri_random r, ri_questionset r,
          ri_created r)
    /\ In r' (runinfos (st_db (saved r' (entered r st))))
    /\ forall W run rest outlog,
        find_run (st_db st) r = Ret run ->
        selects W run r = true ->
        dispatch_loop env W (r :: rest) outlog st
        = dispatch_loop env W rest
            (outlog ++ ["[" +++ run_runid run +++ "] " +++ s_surname subject
                            +++ ", " +++ s_givenname subject +++ ": " +++ reason])
            (saved r' (entered r st)).
Proof.
  intros me Hsub Hprep Hsplit Hsend Hclass.
  assert (Hr : exists reason,
             smtp_reason (exc_class e) = Some reason
             /\ In (exc_class e, reason)
                   [(SMTPRecipientsRefused, "SMTP Recipient Refused");
                    (SMTPHeloError, "SMTP Helo Error");
                    (SMTPSenderRefused, "SMTP Sender Refused");
                    (SMTPDataError, "SMTP Data Error")]).
  { simpl in Hclass.
    destruct Hclass as [H|[H|[H|[H|[]]]]]; rewrite <- H; simpl; eauto 10. }
  destruct Hr as (reason & Hreason & Htable).
  assert (Ho : delivery_outcome st r me = Refused reason).
  { unfold delivery_outcome. now rewrite Hsub, Hprep, Hsplit, Hsend, Hreason. }
  exists reason, (set_lastemailerror r (Some reason)).
  split; [exact Htable|]. split; [|repeat split].
  - rewrite send_email_eq. fold me. now rewrite Ho.
  - apply save_row_In.
  - intros W run rest outlog Hrun Hsel.
    rewrite dispatch_loop_cons, (dispatch_one_selected env W r st run Hrun Hsel).
    rewrite (attempt_eq env r st run subject Hrun Hsub). fold me.
    now rewrite Ho.
Qed.

(** The theorem in the world whose server refuses the recipients. *)
Lemma send_email_classified_failure_witness :
  exists r',
    _send_email Sample.env_refused Sample.ri_old Sample.st0
    = (saved r' (entered Sample.ri_old Sample.st0), Ret (r', false))
    /\ ri_lastemailerror r' = Some "SMTP Recipient Refused"
    /\ ri_emailcount r' = 1
    /\ ri_emailsent r' = Some (Sample.now - 8 * Sample.day_us).
Proof.
  destruct (send_email_classified_failure Sample.env_refused Sample.ri_old
              Sample.st0 Sample.grace Sample.template "Your questionnaire"
              "Dear subject, ..." (mkExc SMTPRecipientsRefused "{}")
              eq_refl eq_refl eq_refl eq_refl (or_introl eq_refl))
    as (reason & r' & Ht & H1 & H2 & H3 & H4 & _).
  exists r'. split; [exact H1|]. split; [|split; assumption].
  rewrite H2. f_equal.
  simpl in Ht.
  destruct Ht as [Ht|[Ht|[Ht|[Ht|[]]]]]; inversion Ht; reflexivity.
Defined.

(* ------------------------------------------------------------------ *)
(** ** Exceptions during one delivery *)

(** C9, as stated, fails on the line of an exception: the template
    renders to one line, the unpacking of line 82 raises [ValueError],
    the loop catches it and logs a line with the run id, the surname and
    the message, and without the given name of the subject. *)
Lemma exception_line_omits_given_name :
  find_subject Sample.db0 Sample.ri_new = Ret Sample.alan
  /\ s_givenname Sample.alan = "Alan"
  /\ _send_email Sample.env_broken Sample.ri_new Sample.st0
     = (entered Sample.ri_new Sample.st0,
        Raise (mkExc ValueError
                     "not enough values to unpack (expected 2, got 1)"))
  /\ attempt Sample.env_broken Sample.ri_new Sample.st0
     = (entered Sample.ri_new Sample.st0,
        Ret ["Exception: [2023] Turing: not enough values to unpack (expected 2, got 1)"])
  /\ contains "Alan"
       "Exception: [2023] Turing: not enough values to unpack (expected 2, got 1)"
     = false.
Proof. repeat split. Qed.

(** What derives from [BaseException] only is not caught at line 151:
    it ends the batch. *)
Lemma interrupt_ends_the_batch :
  let interrupt := mkExc (NonException "KeyboardInterrupt") "" in
  let env := Sample.env_of (fun _ => mkMailEnv (Ret Sample.template)
                                               (Raise interrupt) Sample.now) in
  dispatch_loop env Sample.weekago [Sample.ri_new; Sample.ri_old] [] Sample.st0
  = (entered Sample.ri_new Sample.st0, Raise interrupt).
Proof. reflexivity. Qed.

(** C9, amended. For a recipient that the loop selects, whatever
    [_send_email] does short of raising outside [Exception] is settled
    within the turn of that recipient: the loop appends one line and
    goes on with the remaining recipients.  The line is
    [[runid] surname, givenname: OK] after a success,
    [[runid] surname, givenname: reason] after a classified failure, and
    [Exception: [runid] surname: message], without the given name, after
    any other exception. *)
Theorem delivery_is_isolated env W r rest outlog st run subject st1 res :
  find_run (st_db st) r = Ret run ->
  find_subject (st_db st) r = Ret subject ->
  selects W run r = true ->
  _send_email env r st = (st1, res) ->
  (forall e, res = Raise e -> is_Exception e = true) ->
  exists line,
    dispatch_loop env W (r :: rest) outlog st
    = dispatch_loop env W rest (outlog ++ [line]) st1
    /\ line =
       match res with
       | Ret (_, true) =>
           "[" +++ run_runid run +++ "] " +++ s_surname subject +++ ", "
               +++ s_givenname subject +++ ": OK"
       | Ret (r', false) =>
           "[" +++ run_runid run +++ "] " +++ s_surname subject +++ ", "
               +++ s_givenname subject +++ ": " +++ py_str (ri_lastemailerror r')
       | Raise e =>
           "Exception: [" +++ run_runid run +++ "] " +++ s_surname subject
               +++ ": " +++ exc_str e
       end.
Proof.
  intros Hrun Hsub Hsel Hsend Hexc.
  rewrite dispatch_loop_cons, (dispatch_one_selected env W r st run Hrun Hsel).
  rewrite (attempt_eq env r st run subject Hrun Hsub).
  rewrite send_email_eq in Hsend.
  destruct (delivery_outcome st r _) as [|reason|e];
    inversion Hsend; subst; cbn [escapes state_of line_of].
  - eexists. split; reflexivity.
  - eexists. split; reflexivity.
  - rewrite (Hexc e eq_refl). eexists. split; reflexivity.
Qed.

(** The theorem in the world whose template has one line. *)
Lemma delivery_is_isolated_witness :
  exists line,
    dispatch_loop Sample.env_broken Sample.weekago
                  [Sample.ri_new; Sample.ri_old] [] Sample.st0
    = dispatch_loop Sample.env_broken Sample.weekago [Sample.ri_old]
                    ([] ++ [line]) (entered Sample.ri_new Sample.st0)
    /\ line = "Exception: [2023] Turing: not enough values to unpack (expected 2, got 1)".
Proof.
  refine (delivery_is_isolated Sample.env_broken Sample.weekago Sample.ri_new
            [Sample.ri_old] [] Sample.st0 Sample.run2023 Sample.alan
            (entered Sample.ri_new Sample.st0)
            (Raise (mkExc ValueError
                          "not enough values to unpack (expected 2, got 1)"))
            eq_refl eq_refl eq_refl eq_refl _).
  intros e H. inversion H. reflexivity.
Defined.

(* ------------------------------------------------------------------ *)
(** ** A count without a time of mailing *)

(** C10, as stated, fails on a test run: the [RunInfo] has a positive
    [emailcount] and no [emailsent], the loop comes to it first, skips
    it at line 141, and the job goes on to e-mail the next recipient and
    returns its report. *)
Lemma unset_emailsent_in_test_run_is_skipped :
  email_runinfos Sample.db_test_unset Sample.survey
  = [Sample.ri_test_unset; Sample.ri_new]
  /\ ri_emailcount Sample.ri_test_unset = 1
  /\ ri_emailsent Sample.ri_test_unset = None
  /\ find_run Sample.db_test_unset Sample.ri_test_unset = Ret Sample.run_test
  /\ dispatch_one Sample.env_ok Sample.weekago Sample.ri_test_unset
                  Sample.st_test_unset
     = (Sample.st_test_unset, Ret [])
  /\ snd (send_emails emails_globals Sample.job_settings Sample.env_ok None None
                      Sample.st_test_unset)
     = Ret (Text "[2023] Turing, Alan: OK").
Proof. repeat split. Qed.

(** C10, amended. When the loop comes to a [RunInfo] whose run id does
    not start with [test:], whose [emailcount] is positive and whose
    [emailsent] is unset, line 145 raises [AttributeError] outside the
    [try] of lines 146 to 152: the exception leaves [send_emails], no
    report is returned, and the state is the one the recipients before
    it left, so no recipient after it is processed. *)
Theorem unset_emailsent_ends_the_batch
        g settings env request qname st questionnaire questionset
        st0 pre r post st1 log1 run :
  resolve settings request qname st = (st, Ret (questionnaire, questionset)) ->
  create_runs g env questionset st = (st0, Ret tt) ->
  email_runinfos (st_db st0) questionnaire = pre ++ r :: post ->
  dispatch_loop env (env_time env - ONE_WEEK) pre [] st0 = (st1, Ret log1) ->
  find_run (st_db st1) r = Ret run ->
  startswith (run_runid run) "test:" = false ->
  0 < ri_emailcount r ->
  ri_emailsent r = None ->
  send_emails g settings env request qname st
  = (st1, Raise (mkExc AttributeError
                       "'NoneType' object has no attribute 'timetuple'"))
  /\ dispatch_loop env (env_time env - ONE_WEEK) (r :: post) log1 st1
     = (st1, Raise (mkExc AttributeError
                          "'NoneType' object has no attribute 'timetuple'")).
Proof.
  intros Hres Hcreate Hrows Hpre Hrun Htest Hpos Hunset.
  assert (Hloop : dispatch_loop env (env_time env - ONE_WEEK) (r :: post) log1 st1
                  = (st1, Raise (mkExc AttributeError
                                   "'NoneType' object has no attribute 'timetuple'"))).
  { rewrite dispatch_loop_cons, dispatch_one_eq, Hrun, Htest, Hunset.
    destruct (ri_emailcount r =? -1) eqn:E1; [apply Z.eqb_eq in E1; lia|].
    destruct (ri_emailcount r =? 0) eqn:E0; [apply Z.eqb_eq in E0; lia|].
    reflexivity. }
  split; [|exact Hloop].
  unfold send_emails. rewrite (bind_ret _ _ _ _ _ Hres).
  rewrite (bind_ret _ _ _ _ _ Hcreate).
  unfold dispatch, bind at 1, get_db. rewrite Hrows.
  unfold bind. rewrite dispatch_loop_app, Hpre, Hloop. reflexivity.
Qed.

(** The theorem on the store whose second row has a count and no time:
    the first row is e-mailed, the third is never reached. *)
Lemma unset_emailsent_ends_the_batch_witness :
  send_emails emails_globals Sample.job_settings Sample.env_ok None None
              Sample.st_unset
  = (saved (mark_accepted Sample.ri_new Sample.now)
           (entered Sample.ri_new Sample.st_unset),
     Raise (mkExc AttributeError
                  "'NoneType' object has no attribute 'timetuple'")).
Proof.
  refine (proj1 (unset_emailsent_ends_the_batch
                   emails_globals Sample.job_settings Sample.env_ok None None
                   Sample.st_unset Sample.survey Sample.first_set
                   Sample.st_unset [Sample.ri_new] Sample.ri_unset
                   [Sample.ri_old]
                   (saved (mark_accepted Sample.ri_new Sample.now)
                          (entered Sample.ri_new Sample.st_unset))
                   ["[2023] Turing, Alan: OK"] Sample.run2023
                   _ _ _ _ _ _ _ _)); reflexivity.
Defined.

(* ------------------------------------------------------------------ *)
(** ** The run-creation step once [Run] is imported

    What lines 50 to 64 do in a name space that binds [Run], as the
    docstring of [_new_runinfo] describes the step. *)

(** 29 February goes to 28 February of the next year. *)
Lemma advance_nextrun_leap_day d :
  month d = 2 -> day d = 29 -> 0 <= year d < MAXYEAR ->
  advance_nextrun d = Ret (mkDate (year d + 1) 2 28).
Proof.
  intros Hm Hd Hy. unfold advance_nextrun, datetime, MINYEAR, MAXYEAR in *.
  rewrite Hm, Hd. simpl.
  replace (1 <=? year d + 1) with true by (symmetry; apply Z.leb_le; lia).
  replace (year d + 1 <=? 9999) with true by (symmetry; apply Z.leb_le; lia).
  simpl. unfold days_in_month. simpl.
  destruct (is_leap (year d + 1)); reflexivity.
Qed.

(** Every other day of the calendar keeps its month and day. *)
Lemma advance_nextrun_other_day d :
  valid_date d = true ->
  (month d =? 2) && (day d =? 29) = false ->
  year d < MAXYEAR ->
  advance_nextrun d = Ret (mkDate (year d + 1) (month d) (day d)).
Proof.
  intros Hv Hleap Hy. unfold advance_nextrun. rewrite Hleap.
  unfold valid_date in Hv. unfold datetime, MINYEAR, MAXYEAR in *.
  repeat (apply andb_prop in Hv; destruct Hv as [Hv ?]).
  repeat match goal with
         | H : (_ <=? _) = true |- _ => apply Z.leb_le in H
         end.
  replace (1 <=? year d + 1) with true by (symmetry; apply Z.leb_le; lia).
  replace (year d + 1 <=? 9999) with true by (symmetry; apply Z.leb_le; lia).
  replace (1 <=? month d) with true by (symmetry; apply Z.leb_le; lia).
  replace (month d <=? 12) with true by (symmetry; apply Z.leb_le; lia).
  replace (1 <=? day d) with true by (symmetry; apply Z.leb_le; lia).
  assert (Hdim : day d <= days_in_month (year d + 1) (month d)).
  { unfold days_in_month in *.
    destruct (month d =? 2) eqn:Em; [|exact H].
    simpl in Hleap. apply Z.eqb_neq in Hleap.
    destruct (is_leap (year d)), (is_leap (year d + 1)); lia. }
  apply Z.leb_le in Hdim. rewrite Hdim. reflexivity.
Qed.

(** In the last year of the calendar the constructor refuses. *)
Lemma advance_nextrun_last_year d :
  year d = MAXYEAR -> exists e, advance_nextrun d = Raise e.
Proof.
  intros Hy. unfold advance_nextrun, datetime. rewrite Hy.
  destruct ((month d =? 2) && (day d =? 29)); eexists; reflexivity.
Qed.

(** [get_or_create] on an existing key gives the row and creates none;
    on a new key it appends one row, which the next call gives. *)
Lemma Run_get_or_create_existing runid st run :
  filter (fun x => String.eqb (run_runid x) runid) (runs (st_db st)) = [run] ->
  Run_get_or_create runid st = (st, Ret (run, false)).
Proof.
  intros H. unfold Run_get_or_create, bind, get_db. now rewrite H.
Qed.

Lemma Run_get_or_create_new runid st :
  filter (fun x => String.eqb (run_runid x) runid) (runs (st_db st)) = [] ->
  exists run st',
    Run_get_or_create runid st = (st', Ret (run, true))
    /\ run_runid run = runid
    /\ runs (st_db st') = runs (st_db st) ++ [run]
    /\ filter (fun x => String.eqb (run_runid x) runid) (runs (st_db st')) = [run].
Proof.
  intros H. unfold Run_get_or_create, bind, get_db, put_db. rewrite H.
  eexists. eexists. split; [reflexivity|]. split; [reflexivity|].
  split; [reflexivity|]. simpl. rewrite filter_app, H. simpl.
  now rewrite String.eqb_refl.
Qed.

(** The step on a subject and a run that have their [RunInfo]: the row
    is given back with the question set assigned, nothing else of it
    changes, no row is added, and the subject moves on by a year. *)
Lemma new_runinfo_reuses env subject questionset st run r0 nextrun' :
  filter (fun x => String.eqb (run_runid x) (str_of_Z (year (s_nextrun subject))))
         (runs (st_db st)) = [run] ->
  filter (fun x => (ri_run x =? run_id run) && (ri_subject x =? s_id subject))
         (runinfos (st_db st)) = [r0] ->
  advance_nextrun (s_nextrun subject) = Ret nextrun' ->
  let r := set_questionset r0 (Some (qs_id questionset)) in
  let db := st_db st in
  _new_runinfo fixed_globals env subject questionset st
  = (mkState (with_subjects
                (with_runinfos db (save_row ri_id r (runinfos db)))
                (save_row s_id (set_nextrun subject nextrun') (subjects db)))
             (st_calls st),
     Ret r)
  /\ ri_emailcount r = ri_emailcount r0
  /\ ri_random r = ri_random r0
  /\ List.length (save_row ri_id r (runinfos db)) = List.length (runinfos db).
Proof.
  intros Hrun Hinfo Hadv r db. split; [|split; [reflexivity|split; [reflexivity|]]].
  - unfold _new_runinfo.
    rewrite (bind_ret _ _ st st tt) by reflexivity.
    rewrite (bind_ret _ _ _ _ _ (Run_get_or_create_existing _ _ _ Hrun)).
    rewrite (bind_ret _ _ st st tt) by reflexivity.
    unfold RunInfo_get_or_create. unfold bind at 1 2, get_db. rewrite Hinfo.
    unfold bind, ret, lift, lookup_global, RunInfo_save, Subject_save, get_db,
      put_db. simpl. rewrite Hadv. reflexivity.
  - apply save_row_length.
    assert (Hin : In r0 (filter (fun x => (ri_run x =? run_id run)
                                          && (ri_subject x =? s_id subject))
                                (runinfos db))) by (unfold db; rewrite Hinfo; now left).
    apply filter_In in Hin. destruct Hin as [Hin _].
    apply existsb_exists. exists r0. split; [exact Hin|].
    apply Z.eqb_refl.
Qed.

(** Two subjects due in the same year: the first call creates the run
    of the year, the second finds it, and both rows point to it. *)
Lemma same_year_shares_run :
  let due := set_nextrun Sample.alan (mkDate 2024 1 15) in
  let run2024 := mkRun 3 "2024" in
  let st1 := fst (_new_runinfo fixed_globals Sample.env_ok Sample.ada
                               Sample.first_set Sample.st_due) in
  let st2 := fst (_new_runinfo fixed_globals Sample.env_ok due
                               Sample.first_set st1) in
  runs (st_db st1) = [Sample.run2023; Sample.run_test; run2024]
  /\ runs (st_db st2) = [Sample.run2023; Sample.run_test; run2024]
  /\ map ri_run (filter (fun x => 2 <? ri_id x) (runinfos (st_db st2))) = [3; 3]
  /\ map s_nextrun (subjects (st_db st2))
     = [mkDate 2025 2 28; mkDate 2025 1 15; mkDate 2025 12 9].
Proof. repeat split. Qed.

(* ------------------------------------------------------------------ *)
(** ** Lines 121 to 132 *)

(** The test of line 121 holds for one code only, the one of the settings. *)
Lemma code_matches_true code emailcode :
  code_matches code emailcode = true <->
  exists c, code = Some c /\ emailcode = Some c.
Proof.
  unfold code_matches. destruct code as [c|], emailcode as [k|]; split;
    try discriminate; try (intros (x & H1 & H2); discriminate).
  - intros H. apply String.eqb_eq in H. subst. now exists k.
  - intros (x & H1 & H2). inversion H1; inversion H2; subst. apply String.eqb_refl.
Qed.

(** [resolve] reads the store and the settings and writes nothing. *)
Lemma resolve_state settings request qname st :
  fst (resolve settings request qname st) = st.
Proof.
  unfold resolve, bind, get_db, lift, ret, raise.
  destruct request as [rq|];
    [destruct (negb (code_matches (GET_code rq) (EMAILCODE settings)));
     [reflexivity|] |];
    (destruct (if truthy qname then qname else QUESTIONNAIRE_DEFAULT settings)
       as [[|c n]|]; [reflexivity| |reflexivity];
     destruct (get_one _ _); [|reflexivity];
     destruct (order_by_sortid _); reflexivity).
Qed.

Lemma resolve_unauthorised settings rq qname st :
  code_matches (GET_code rq) (EMAILCODE settings) = false ->
  resolve settings (Some rq) qname st = (st, Raise (mkExc Http404 "")).
Proof. intros H. unfold resolve, bind. now rewrite H. Qed.

(** Past line 121 the request plays no part until the report. *)
Lemma resolve_authorised settings request qname st :
  authorised settings request = true ->
  resolve settings request qname st = resolve settings None qname st.
Proof.
  intros H. destruct request as [rq|]; [|reflexivity].
  simpl in H. unfold resolve, bind. now rewrite H.
Qed.

Lemma resolve_cli settings qname st :
  resolve settings None qname st =
  match effective_qname settings qname with
  | Some (String c n) =>
      match get_one "Questionnaire"
              (filter (fun q => String.eqb (q_name q) (String c n))
                      (questionnaires (st_db st))) with
      | Ret questionnaire =>
          match order_by_sortid (questionsets_named (st_db st) (String c n)) with
          | [] => (st, Raise (mkExc PlainException
                     ("No questionsets for questionnaire '" +++ String c n
                        +++ "' (in settings.py)")))
          | questionset :: _ => (st, Ret (questionnaire, questionset))
          end
      | Raise e => (st, Raise e)
      end
  | _ => (st, Raise (mkExc PlainException "QUESTIONNAIRE_DEFAULT not in settings"))
  end.
Proof.
  unfold resolve, effective_qname, bind, get_db, lift, ret, raise.
  destruct (if truthy qname then qname else QUESTIONNAIRE_DEFAULT settings)
    as [[|c n]|]; [reflexivity| |reflexivity].
  destruct (get_one _ _); [|reflexivity].
  destruct (order_by_sortid _); reflexivity.
Qed.

(* ------------------------------------------------------------------ *)
(** ** The order of the question sets *)

Lemma insert_by_sortid_In q l x :
  In x (insert_by_sortid q l) <-> x = q \/ In x l.
Proof.
  induction l as [|y rest IH]; simpl.
  - intuition.
  - destruct (qs_sortid q <=? qs_sortid y); simpl; [intuition|].
    rewrite IH. intuition.
Qed.

Lemma order_by_sortid_In l x : In x (order_by_sortid l) <-> In x l.
Proof.
  induction l as [|y rest IH]; simpl; [tauto|].
  unfold order_by_sortid in *. simpl. rewrite insert_by_sortid_In, IH.
  intuition.
Qed.

Lemma insert_by_sortid_sorted q l :
  StronglySorted sortid_le l -> StronglySorted sortid_le (insert_by_sortid q l).
Proof.
  induction 1 as [|y rest Hs IH Hall]; simpl.
  - constructor; constructor.
  - destruct (qs_sortid q <=? qs_sortid y) eqn:E.
    + apply Z.leb_le in E. constructor; [now constructor|].
      constructor; [exact E|].
      eapply Forall_impl; [|exact Hall]. unfold sortid_le. intros; lia.
    + apply Z.leb_gt in E. constructor; [exact IH|].
      apply Forall_forall. intros x Hx. apply insert_by_sortid_In in Hx.
      destruct Hx as [->|Hx]; [unfold sortid_le; lia|].
      rewrite Forall_forall in Hall. now apply Hall.
Qed.

Lemma order_by_sortid_sorted l : StronglySorted sortid_le (order_by_sortid l).
Proof.
  induction l as [|y rest IH]; [constructor|].
  unfold order_by_sortid in *. simpl. now apply insert_by_sortid_sorted.
Qed.

Lemma order_by_sortid_head l x rest :
  order_by_sortid l = x :: rest ->
  In x l /\ forall y, In y l -> qs_sortid x <= qs_sortid y.
Proof.
  intros H. split.
  - apply order_by_sortid_In. rewrite H. now left.
  - intros y Hy. apply order_by_sortid_In in Hy. rewrite H in Hy.
    pose proof (order_by_sortid_sorted l) as Hs. rewrite H in Hs.
    inversion Hs as [|? ? _ Hall]; subst.
    destruct Hy as [<-|Hy]; [lia|].
    rewrite Forall_forall in Hall. now apply Hall.
Qed.

(** [get] gives a row only when it is the one row that matches. *)
Lemma get_one_Ret {A} model (l : list A) x : get_one model l = Ret x -> l = [x].
Proof.
  destruct l as [|a [|b l]]; simpl; intros H; inversion H; reflexivity.
Qed.

(* ------------------------------------------------------------------ *)
(** ** Who may start the job, and on which questionnaire *)

(** X1. A web request whose [code] is not the [EMAILCODE] of the
    settings is answered with [Http404] before anything is read or
    written; so is every web request when [EMAILCODE] is not set, the
    default of line 121 being [False]. *)
Theorem web_trigger_needs_the_code g settings env rq qname st :
  (forall c, ~ (GET_code rq = Some c /\ EMAILCODE settings = Some c)) ->
  send_emails g settings env (Some rq) qname st = (st, Raise (mkExc Http404 "")).
Proof.
  intros H.
  assert (Hc : code_matches (GET_code rq) (EMAILCODE settings) = false).
  { destruct (code_matches _ _) eqn:E; [|reflexivity].
    apply code_matches_true in E. destruct E as (c & H1 & H2).
    exfalso. now apply (H c). }
  unfold send_emails. apply bind_raise. now apply resolve_unauthorised.
Qed.

Lemma dispatch_state env request questionnaire st :
  fst (dispatch env request questionnaire st)
  = fst (dispatch_loop env (env_time env - ONE_WEEK)
           (email_runinfos (st_db st) questionnaire) [] st).
Proof.
  unfold dispatch, bind, get_db.
  destruct (dispatch_loop _ _ _ _ _) as [st' [out|e]]; [|reflexivity].
  destruct request; reflexivity.
Qed.

Lemma dispatch_raises env request questionnaire st e :
  snd (dispatch env request questionnaire st) = Raise e <->
  snd (dispatch_loop env (env_time env - ONE_WEEK)
         (email_runinfos (st_db st) questionnaire) [] st) = Raise e.
Proof.
  unfold dispatch, bind, get_db.
  destruct (dispatch_loop _ _ _ _ _) as [st' [out|e']].
  - destruct request; simpl; split; discriminate.
  - simpl. split; intros H; inversion H; reflexivity.
Qed.

Lemma send_emails_eq g settings env request qname st :
  send_emails g settings env request qname st =
  match resolve settings request qname st with
  | (st1, Ret (questionnaire, questionset)) =>
      match create_runs g env questionset st1 with
      | (st2, Ret _) => dispatch env request questionnaire st2
      | (st2, Raise e) => (st2, Raise e)
      end
  | (st1, Raise e) => (st1, Raise e)
  end.
Proof.
  unfold send_emails, bind.
  destruct (resolve settings request qname st) as [st1 [[q qs]|e]]; reflexivity.
Qed.

(** X2. A web request with the code of the settings does to the store
    and to the mail what the call without request does, and raises what
    it raises; the request is used again only to wrap the report. *)
Theorem web_call_acts_as_command_line g settings env rq qname st :
  code_matches (GET_code rq) (EMAILCODE settings) = true ->
  fst (send_emails g settings env (Some rq) qname st)
  = fst (send_emails g settings env None qname st)
  /\ forall e,
      snd (send_emails g settings env (Some rq) qname st) = Raise e <->
      snd (send_emails g settings env None qname st) = Raise e.
Proof.
  intros H. rewrite !send_emails_eq.
  rewrite (resolve_authorised settings (Some rq) qname st H).
  destruct (resolve settings None qname st) as [st1 [[q qs]|e]];
    [|split; [reflexivity|intros e0; split; auto]].
  destruct (create_runs g env qs st1) as [st2 [u|e]];
    [|split; [reflexivity|intros e0; split; auto]].
  split.
  - now rewrite !dispatch_state.
  - intros e. now rewrite !dispatch_raises.
Qed.

(** X3. Without a name in the call and without one in
    [QUESTIONNAIRE_DEFAULT] (each absent or empty) the job raises the
    exception of line 126 and leaves the state as it is. *)
Theorem questionnaire_name_is_required g settings env request qname st :
  authorised settings request = true ->
  truthy qname = false ->
  truthy (QUESTIONNAIRE_DEFAULT settings) = false ->
  send_emails g settings env request qname st
  = (st, Raise (mkExc PlainException "QUESTIONNAIRE_DEFAULT not in settings")).
Proof.
  intros Ha Hq Hd. unfold send_emails. apply bind_raise.
  rewrite (resolve_authorised _ _ _ _ Ha), resolve_cli.
  unfold effective_qname. rewrite Hq.
  destruct (QUESTIONNAIRE_DEFAULT settings) as [[|c n]|]; try reflexivity.
  discriminate Hd.
Qed.

(** X4. A questionnaire that exists and has no question set ends the
    job with the exception of line 130, which names the questionnaire;
    no subject is looked at and nothing is written. *)
Theorem questionnaire_needs_question_sets
        g settings env request qname st name questionnaire :
  authorised settings request = true ->
  effective_qname settings qname = Some name ->
  name <> "" ->
  filter (fun q => String.eqb (q_name q) name) (questionnaires (st_db st))
  = [questionnaire] ->
  questionsets_named (st_db st) name = [] ->
  send_emails g settings env request qname st
  = (st, Raise (mkExc PlainException
                  ("No questionsets for questionnaire '" +++ name
                     +++ "' (in settings.py)"))).
Proof.
  intros Ha Hn Hne Hq Hs. unfold send_emails. apply bind_raise.
  rewrite (resolve_authorised _ _ _ _ Ha), resolve_cli, Hn.
  destruct name as [|c n]; [contradiction|].
  now rewrite Hq, Hs.
Qed.

(** X5. When lines 121 to 132 succeed they have written nothing; the
    questionnaire is the only one of the name in force (the argument,
    or else the default), and the question set belongs to it and has
    the least [sortid] of its question sets. *)
Theorem resolve_gives_first_question_set
        settings request qname st st' questionnaire questionset :
  resolve settings request qname st = (st', Ret (questionnaire, questionset)) ->
  st' = st
  /\ effective_qname settings qname = Some (q_name questionnaire)
  /\ filter (fun q => String.eqb (q_name q) (q_name questionnaire))
            (questionnaires (st_db st)) = [questionnaire]
  /\ In questionset (questionsets (st_db st))
  /\ qs_questionnaire questionset = q_id questionnaire
  /\ forall other,
      In other (questionsets (st_db st)) ->
      qs_questionnaire other = q_id questionnaire ->
      qs_sortid questionset <= qs_sortid other.
Proof.
  intros H.
  assert (Hst : st' = st).
  { pose proof (resolve_state settings request qname st) as E.
    now rewrite H in E. }
  subst st'. split; [reflexivity|].
  assert (Ha : authorised settings request = true).
  { destruct request as [rq|]; [|reflexivity]. simpl.
    destruct (code_matches _ _) eqn:E; [reflexivity|].
    rewrite (resolve_unauthorised _ _ _ _ E) in H. discriminate H. }
  rewrite (resolve_authorised _ _ _ _ Ha), resolve_cli in H.
  destruct (effective_qname settings qname) as [[|c n]|]; try discriminate H.
  set (name := String c n) in *.
  destruct (get_one _ _) as [q|e] eqn:Hget; [|discriminate H].
  destruct (order_by_sortid _) as [|qs rest] eqn:Hord; [discriminate H|].
  inversion H; subst q qs. clear H.
  apply get_one_Ret in Hget.
  assert (Hname : q_name questionnaire = name).
  { assert (Hin : In questionnaire
                     (filter (fun q => String.eqb (q_name q) name)
                             (questionnaires (st_db st))))
      by (rewrite Hget; now left).
    apply filter_In in Hin. now apply String.eqb_eq. }
  rewrite Hname. split; [reflexivity|]. split; [exact Hget|].
  apply order_by_sortid_head in Hord. destruct Hord as [Hin Hmin].
  unfold questionsets_named in Hin, Hmin.
  assert (Hq : forall qs,
             existsb (fun q => (q_id q =? qs_questionnaire qs)
                               && String.eqb (q_name q) name)
                     (questionnaires (st_db st)) = true <->
             qs_questionnaire qs = q_id questionnaire).
  { intros qs. rewrite existsb_exists. split.
    - intros (q & Hq1 & Hq2). apply andb_prop in Hq2. destruct Hq2 as [Hid Hnm].
      assert (Hin' : In q (filter (fun q => String.eqb (q_name q) name)
                                  (questionnaires (st_db st))))
        by (apply filter_In; now split).
      rewrite Hget in Hin'. destruct Hin' as [<-|[]].
      apply Z.eqb_eq in Hid. now symmetry.
    - intros Hid. exists questionnaire. split.
      + assert (Hin' : In questionnaire
                          (filter (fun q => String.eqb (q_name q) name)
                                  (questionnaires (st_db st))))
          by (rewrite Hget; now left).
        now apply filter_In in Hin'.
      + rewrite Hid, Z.eqb_refl, Hname. apply String.eqb_refl. }
  apply filter_In in Hin. destruct Hin as [Hin Hex].
  split; [exact Hin|]. split; [now apply Hq|].
  intros other Ho Hid. apply Hmin. apply filter_In. split; [exact Ho|].
  now apply Hq.
Qed.

(* ------------------------------------------------------------------ *)
(** ** The rows the dispatch calls and writes *)

(** The state a delivery leaves, whether or not its log line is written. *)
Lemma attempt_state env r st :
  let me := env_mail env (List.length (st_calls st)) in
  fst (attempt env r st) = state_of r (me_now me) (delivery_outcome st r me) st.
Proof.
  intros me. unfold attempt, try_except, bind at 1. rewrite send_email_eq.
  fold me.
  destruct (delivery_outcome st r me) as [|reason|e];
    unfold bind, related_run, related_subject, get_db, lift, ret; simpl;
    rewrite ?(find_run_saved _ _ r), ?(find_subject_saved _ _ r) by reflexivity;
    split_lookups; reflexivity.
Qed.

(** A turn of the loop leaves the state, or it is a delivery to a row
    that passes the test. *)
Lemma dispatch_one_effect env W r st :
  fst (dispatch_one env W r st) = st
  \/ (passes (st_db st) W r = true
      /\ dispatch_one env W r st = attempt env r st).
Proof.
  unfold passes.
  destruct (find_run (st_db st) r) as [run|e] eqn:Hrun.
  - rewrite (dispatch_one_by_selects env W r st run Hrun).
    destruct (selects W run r); [right; now split|].
    left. destruct (_ && _); reflexivity.
  - left. now rewrite dispatch_one_eq, Hrun.
Qed.

Lemma state_of_frame r now o st :
  let st' := state_of r now o st in
  subjects (st_db st') = subjects (st_db st)
  /\ runs (st_db st') = runs (st_db st)
  /\ questionnaires (st_db st') = questionnaires (st_db st)
  /\ questionsets (st_db st') = questionsets (st_db st).
Proof. destruct o; simpl; auto. Qed.

(** The rows of the table after an outcome: at most the row of [r] is
    written, with an object that has the key of [r]. *)
Lemma state_of_rows r now o st :
  runinfos (st_db (state_of r now o st)) = runinfos (st_db st)
  \/ exists r', ri_id r' = ri_id r
                /\ runinfos (st_db (state_of r now o st))
                   = save_row ri_id r' (runinfos (st_db st)).
Proof.
  destruct o as [|reason|e]; simpl; [right|right|now left].
  - now exists (mark_accepted r now).
  - now exists (set_lastemailerror r (Some reason)).
Qed.

Lemma dispatch_one_frame env W r st :
  let st' := fst (dispatch_one env W r st) in
  subjects (st_db st') = subjects (st_db st)
  /\ runs (st_db st') = runs (st_db st)
  /\ questionnaires (st_db st') = questionnaires (st_db st)
  /\ questionsets (st_db st') = questionsets (st_db st).
Proof.
  destruct (dispatch_one_effect env W r st) as [H|[_ H]]; simpl.
  - rewrite H. auto.
  - rewrite H, attempt_state. apply state_of_frame.
Qed.

(** What every turn keeps, the loop keeps. *)
Lemma dispatch_loop_inv (Inv : State -> Prop) env W rs :
  (forall r st, In r rs -> Inv st -> Inv (fst (dispatch_one env W r st))) ->
  forall outlog st, Inv st -> Inv (fst (dispatch_loop env W rs outlog st)).
Proof.
  induction rs as [|r rest IH]; intros Hstep outlog st Hst; [exact Hst|].
  rewrite dispatch_loop_cons.
  pose proof (Hstep r st (or_introl eq_refl) Hst) as H1.
  destruct (dispatch_one env W r st) as [st' [lines|e]]; simpl in H1; [|exact H1].
  apply IH; [|exact H1]. intros r0 st0 Hin. apply Hstep. now right.
Qed.

Lemma passes_frame db db1 W r :
  runs db1 = runs db -> passes db1 W r = passes db W r.
Proof. intros H. unfold passes. now rewrite (find_run_frame db db1 r H). Qed.

Lemma save_row_pks {A} (pk : A -> Z) (obj : A) rows :
  In (pk obj) (map pk rows) -> map pk (save_row pk obj rows) = map pk rows.
Proof.
  induction rows as [|row rest IH]; simpl; [tauto|].
  destruct (pk row =? pk obj) eqn:E; simpl.
  - apply Z.eqb_eq in E. now rewrite E.
  - intros [H|H]; [apply Z.eqb_neq in E; congruence|]. now rewrite IH.
Qed.

Lemma save_row_keeps {A} (pk : A -> Z) (obj x : A) rows :
  In x rows -> pk x <> pk obj -> In x (save_row pk obj rows).
Proof.
  induction rows as [|row rest IH]; simpl; [tauto|].
  intros [->|H] Hne.
  - destruct (pk x =? pk obj) eqn:E; [apply Z.eqb_eq in E; contradiction|].
    now left.
  - destruct (pk row =? pk obj); simpl; auto.
Qed.

Lemma NoDup_map_eq {A} (f : A -> Z) l a b :
  NoDup (map f l) -> In a l -> In b l -> f a = f b -> a = b.
Proof.
  induction l as [|x l IH]; simpl; [tauto|].
  intros Hnd Ha Hb Hf. inversion Hnd as [|? ? Hnin Hnd']; subst.
  destruct Ha as [->|Ha], Hb as [->|Hb]; auto.
  - exfalso. apply Hnin. rewrite Hf. now apply in_map.
  - exfalso. apply Hnin. rewrite <- Hf. now apply in_map.
Qed.

(** X9. When the loop runs to its end, the rows handed to
    [_send_email] are exactly the rows of the list that pass the test
    of lines 141 to 145, each once and in the order of the list. *)
Theorem batch_calls_the_rows_that_pass env W rs :
  forall outlog st out,
    snd (dispatch_loop env W rs outlog st) = Ret out ->
    st_calls (fst (dispatch_loop env W rs outlog st))
    = rev (filter (passes (st_db st) W) rs) ++ st_calls st.
Proof.
  induction rs as [|r rest IH]; intros outlog st out Hret; [reflexivity|].
  rewrite dispatch_loop_cons in *.
  pose proof (dispatch_one_frame env W r st) as (_ & Hruns & _).
  destruct (find_run (st_db st) r) as [run|e] eqn:Hrun.
  - pose proof (dispatch_one_by_selects env W r st run Hrun) as Hone.
    assert (Hp : passes (st_db st) W r = selects W run r)
      by (unfold passes; now rewrite Hrun).
    cbn [filter]. rewrite Hp.
    destruct (selects W run r).
    + pose proof (attempt_calls env r st) as Hcalls. rewrite <- Hone in Hcalls.
      destruct (dispatch_one env W r st) as [st' [lines|e]]; [|discriminate Hret].
      simpl in Hruns, Hcalls.
      rewrite (IH _ _ out Hret), Hcalls. simpl rev. rewrite <- app_assoc. simpl.
      do 2 f_equal. apply filter_ext. intros x. now apply passes_frame.
    + rewrite Hone in *.
      destruct (_ && _); [discriminate Hret|].
      rewrite (IH _ _ out Hret). reflexivity.
  - rewrite dispatch_one_eq, Hrun in Hret. discriminate Hret.
Qed.

(** The dispatch writes rows of the one table and keeps their keys. *)
Lemma dispatch_frame env request questionnaire st :
  let db := st_db st in
  let db' := st_db (fst (dispatch env request questionnaire st)) in
  subjects db' = subjects db
  /\ runs db' = runs db
  /\ questionnaires db' = questionnaires db
  /\ questionsets db' = questionsets db
  /\ map ri_id (runinfos db') = map ri_id (runinfos db).
Proof.
  intros db db'. unfold db'. rewrite dispatch_state.
  apply (dispatch_loop_inv
           (fun s => subjects (st_db s) = subjects db
                     /\ runs (st_db s) = runs db
                     /\ questionnaires (st_db s) = questionnaires db
                     /\ questionsets (st_db s) = questionsets db
                     /\ map ri_id (runinfos (st_db s)) = map ri_id (runinfos db)));
    [|now repeat split].
  intros r s Hin (H1 & H2 & H3 & H4 & H5).
  destruct (dispatch_one_frame env (env_time env - ONE_WEEK) r s)
    as (F1 & F2 & F3 & F4).
  rewrite F1, F2, F3, F4. repeat split; try assumption.
  destruct (dispatch_one_effect env (env_time env - ONE_WEEK) r s) as [E|[_ E]];
    [now rewrite E|].
  rewrite E, attempt_state.
  destruct (state_of_rows r (me_now (env_mail env (List.length (st_calls s))))
              (delivery_outcome s r (env_mail env (List.length (st_calls s)))) s)
    as [R|(r' & Hid & R)]; rewrite R; [exact H5|].
  rewrite save_row_pks; [exact H5|].
  rewrite Hid, H5. apply in_map. unfold email_runinfos in Hin.
  now apply filter_In in Hin.
Qed.

(** X10. Lines 137 to 156 write to the table of [RunInfo] rows only,
    and there they neither add nor delete a row nor change a primary
    key: subjects, runs, questionnaires and question sets are as
    before, however the dispatch ends. *)
Theorem dispatch_keeps_tables_and_keys env request questionnaire st :
  let db := st_db st in
  let db' := st_db (fst (dispatch env request questionnaire st)) in
  subjects db' = subjects db
  /\ runs db' = runs db
  /\ questionnaires db' = questionnaires db
  /\ questionsets db' = questionsets db
  /\ map ri_id (runinfos db') = map ri_id (runinfos db).
Proof. exact (dispatch_frame env request questionnaire st). Qed.

(** X11. With distinct primary keys, a row that is not in the list of
    line 137 or does not pass the test of lines 141 to 145 (a
    suppressed row, a row of a test run, a row mailed within the week)
    is in the table after the dispatch exactly as it was, however the
    dispatch ends. *)
Theorem rows_that_do_not_pass_are_untouched env request questionnaire st x :
  NoDup (map ri_id (runinfos (st_db st))) ->
  In x (runinfos (st_db st)) ->
  (In x (email_runinfos (st_db st) questionnaire) ->
   passes (st_db st) (env_time env - ONE_WEEK) x = false) ->
  In x (runinfos (st_db (fst (dispatch env request questionnaire st)))).
Proof.
  intros Hnd Hx Hpass. rewrite dispatch_state.
  set (W := env_time env - ONE_WEEK) in *.
  apply (dispatch_loop_inv
           (fun s => runs (st_db s) = runs (st_db st)
                     /\ In x (runinfos (st_db s))));
    [|now split].
  intros r s Hin (Hruns & Hxs).
  destruct (dispatch_one_frame env W r s) as (_ & F2 & _).
  split; [now rewrite F2|].
  destruct (dispatch_one_effect env W r s) as [E|[P E]]; [now rewrite E|].
  rewrite E, attempt_state.
  destruct (state_of_rows r (me_now (env_mail env (List.length (st_calls s))))
              (delivery_outcome s r (env_mail env (List.length (st_calls s)))) s)
    as [R|(r' & Hid & R)]; rewrite R; [exact Hxs|].
  apply save_row_keeps; [exact Hxs|]. rewrite Hid. intros Heq.
  rewrite (passes_frame _ _ W r Hruns) in P.
  assert (Hr : In r (runinfos (st_db st)))
    by (unfold email_runinfos in Hin; now apply filter_In in Hin).
  assert (Hxr : x = r) by exact (NoDup_map_eq ri_id _ x r Hnd Hx Hr Heq).
  subst x. rewrite (Hpass Hin) in P. discriminate P.
Qed.

Lemma email_runinfos_In db questionnaire r :
  In r (email_runinfos db questionnaire) <-> in_email_queryset db questionnaire r.
Proof.
  unfold email_runinfos, in_email_queryset. rewrite filter_In. split.
  - intros (Hin & H). apply andb_prop in H. destruct H as [Hs Hq].
    split; [exact Hin|]. split.
    + apply existsb_exists in Hs. destruct Hs as (s & Hs1 & Hs2).
      apply andb_prop in Hs2. destruct Hs2 as [Hid Hft].
      exists s. repeat split; auto.
      * now apply Z.eqb_eq.
      * now apply String.eqb_eq.
    + destruct (ri_questionset r) as [k|]; [|discriminate].
      apply existsb_exists in Hq. destruct Hq as (qs & Hq1 & Hq2).
      apply andb_prop in Hq2. destruct Hq2 as [Hid Hqq].
      exists qs. repeat split; auto.
      * apply Z.eqb_eq in Hid. now rewrite Hid.
      * now apply Z.eqb_eq.
  - intros (Hin & (s & Hs1 & Hs2 & Hs3) & (qs & Hq1 & Hq2 & Hq3)).
    split; [exact Hin|]. apply andb_true_intro. split.
    + apply existsb_exists. exists s. split; [exact Hs1|].
      rewrite Hs2, Z.eqb_refl, Hs3. reflexivity.
    + rewrite Hq2. apply existsb_exists. exists qs. split; [exact Hq1|].
      now rewrite Z.eqb_refl, Hq3, Z.eqb_refl.
Qed.

(** The calls of a batch, however it ends, are for rows of the list
    that pass the test. *)
Lemma dispatch_loop_sound env W db0 rs :
  forall outlog st,
    runs (st_db st) = runs db0 ->
    exists called,
      st_calls (fst (dispatch_loop env W rs outlog st)) = called ++ st_calls st
      /\ Forall (fun x => In x rs /\ passes db0 W x = true) called.
Proof.
  induction rs as [|r rest IH]; intros outlog st Hruns.
  - now exists [].
  - rewrite dispatch_loop_cons.
    destruct (dispatch_one_frame env W r st) as (_ & F2 & _).
    assert (H1 : exists c1,
               st_calls (fst (dispatch_one env W r st)) = c1 ++ st_calls st
               /\ Forall (fun x => In x (r :: rest) /\ passes db0 W x = true) c1).
    { destruct (dispatch_one_effect env W r st) as [E|[P E]].
      - exists []. now rewrite E.
      - exists [r]. rewrite E, attempt_calls. split; [reflexivity|].
        constructor; [|constructor]. split; [now left|].
        now rewrite <- (passes_frame db0 (st_db st) W r Hruns). }
    destruct H1 as (c1 & Hc1 & Hall1).
    destruct (dispatch_one env W r st) as [st' [lines|e]]; simpl in *.
    + destruct (IH (outlog ++ lines) st') as (c2 & Hc2 & Hall2);
        [congruence|].
      exists (c2 ++ c1). split; [now rewrite Hc2, Hc1, app_assoc|].
      apply Forall_app. split; [|exact Hall1].
      eapply Forall_impl; [|exact Hall2]. intros x [Hx Hp]. split; auto.
    + exists c1. now split.
Qed.

(** X8. However the dispatch ends, every row it hands to
    [_send_email] is a row of the store whose subject has the form type
    [email], whose question set is one of the questionnaire, and which
    passes the test of lines 141 to 145. *)
Theorem only_selected_email_subjects_are_mailed env request questionnaire st :
  exists called,
    st_calls (fst (dispatch env request questionnaire st)) = called ++ st_calls st
    /\ Forall (fun r =>
                 in_email_queryset (st_db st) questionnaire r
                 /\ passes (st_db st) (env_time env - ONE_WEEK) r = true)
              called.
Proof.
  rewrite dispatch_state.
  destruct (dispatch_loop_sound env (env_time env - ONE_WEEK) (st_db st)
              (email_runinfos (st_db st) questionnaire) [] st eq_refl)
    as (called & Hc & Hall).
  exists called. split; [exact Hc|].
  eapply Forall_impl; [|exact Hall]. intros r [Hin Hp].
  split; [now apply email_runinfos_In | exact Hp].
Qed.

(* ------------------------------------------------------------------ *)
(** ** One delivery, and the job after it *)

(** X13. Whatever happens in [_send_email], the subjects, the runs and
    the [RunInfo] rows under other primary keys are as before; when the
    function raises, which is every failure outside the four classified
    errors, nothing at all is written, not even the status text. *)
Theorem send_email_writes_its_row_only env r st st1 res :
  _send_email env r st = (st1, res) ->
  subjects (st_db st1) = subjects (st_db st)
  /\ runs (st_db st1) = runs (st_db st)
  /\ (forall k, k <> ri_id r ->
        filter (fun x => ri_id x =? k) (runinfos (st_db st1))
        = filter (fun x => ri_id x =? k) (runinfos (st_db st)))
  /\ (forall e, res = Raise e -> st_db st1 = st_db st)
  /\ st_calls st1 = r :: st_calls st.
Proof.
  intros H. destruct (send_email_frame env r st st1 res H) as (Hc & Hr & Hs & _).
  split; [exact Hs|]. split; [exact Hr|].
  rewrite send_email_eq in H.
  destruct (delivery_outcome _ _ _) as [|reason|e0]; inversion H; subst; clear H.
  - split; [|split; [discriminate|reflexivity]].
    intros k Hk. simpl. now apply save_row_other.
  - split; [|split; [discriminate|reflexivity]].
    intros k Hk. simpl. now apply save_row_other.
  - split; [reflexivity|]. split; reflexivity.
Qed.

(** X15. A [RunInfo] with a count of at least 0 that [_send_email]
    marked as sent is not e-mailed by a later job that reads the clock
    less than a week, short of a second, after the time of sending:
    its turn leaves the state and logs nothing. *)
Theorem not_resent_within_the_week env r st st1 r' env2 st2 :
  _send_email env r st = (st1, Ret (r', true)) ->
  0 <= ri_emailcount r ->
  env_time env2 + 1000000
  <= me_now (env_mail env (List.length (st_calls st))) + ONE_WEEK ->
  dispatch_one env2 (env_time env2 - ONE_WEEK) r' st2 = (st2, Ret [])
  \/ exists e, dispatch_one env2 (env_time env2 - ONE_WEEK) r' st2 = (st2, Raise e)
               /\ find_run (st_db st2) r' = Raise e.
Proof.
  intros H Hc Ht. rewrite send_email_eq in H.
  destruct (delivery_outcome _ _ _) as [|reason|e0]; inversion H; subst; clear H.
  rewrite dispatch_one_eq.
  destruct (find_run (st_db st2) _) as [run|e]; [left|right; now exists e].
  destruct (startswith (run_runid run) "test:"); [reflexivity|].
  unfold mark_accepted.
  cbn [ri_emailcount ri_emailsent set_lastemailerror set_emailsent set_emailcount].
  destruct (1 + ri_emailcount r =? -1) eqn:E1; [reflexivity|].
  destruct (1 + ri_emailcount r =? 0) eqn:E0; [apply Z.eqb_eq in E0; lia|].
  pose proof (mktime_timetuple_bounds
                (me_now (env_mail env (List.length (st_calls st))))) as Hb.
  replace (_ <? _) with false; [reflexivity|].
  symmetry. apply Z.ltb_ge. lia.
Qed.

Lemma selects_later W W' run r :
  W <= W' -> selects W run r = true -> selects W' run r = true.
Proof.
  intros Hle. unfold selects.
  destruct (startswith _ _); [discriminate|].
  destruct (ri_emailcount r =? -1); [discriminate|].
  destruct (ri_emailcount r =? 0); [reflexivity|].
  destruct (ri_emailsent r) as [t|]; [|discriminate]. simpl.
  intros H. apply Z.ltb_lt in H. apply Z.ltb_lt. lia.
Qed.

(** X16. A classified failure uses up nothing: the [RunInfo] that
    [_send_email] leaves after it is selected again by every job whose
    cutoff is not earlier, so the delivery is tried again on the next
    run, without a week of waiting. *)
Theorem refused_delivery_is_tried_again env W r st st1 r' run W' env2 st2 :
  find_run (st_db st) r = Ret run ->
  selects W run r = true ->
  _send_email env r st = (st1, Ret (r', false)) ->
  W <= W' ->
  find_run (st_db st2) r' = Ret run ->
  dispatch_one env2 W' r' st2 = attempt env2 r' st2.
Proof.
  intros Hrun Hsel H Hle Hrun2.
  apply (dispatch_one_selected env2 W' r' st2 run Hrun2).
  apply (selects_later W W' run r' Hle).
  rewrite send_email_eq in H.
  destruct (delivery_outcome _ _ _) as [|reason|e0];
    inversion H as [[Hst Hobj]]. exact Hsel.
Qed.

(* ------------------------------------------------------------------ *)
(** ** What a batch does to a row *)

Lemma row_step_id x x' : row_step x x' -> ri_id x' = ri_id x.
Proof. intros [->|[(_ & now & ->)|(reason & ->)]]; reflexivity. Qed.

Lemma passes_not_suppressed db W r : passes db W r = true -> ri_emailcount r <> -1.
Proof.
  unfold passes, selects. destruct (find_run db r); [|discriminate].
  destruct (startswith _ _); [discriminate|].
  destruct (ri_emailcount r =? -1) eqn:E; [discriminate|].
  intros _. now apply Z.eqb_neq.
Qed.

Lemma Forall2_impl_In {A B} (P Q : A -> B -> Prop) l l' :
  Forall2 P l l' ->
  (forall x x', In x l -> P x x' -> Q x x') ->
  Forall2 Q l l'.
Proof.
  induction 1 as [|x x' l l' Hp Hf IH]; intros Himp; constructor.
  - apply Himp; [now left | exact Hp].
  - apply IH. intros y y' Hy. apply Himp. now right.
Qed.

Lemma save_row_Forall2 (P Q : RunInfo -> RunInfo -> Prop) rows0 rows r r' :
  Forall2 P rows0 rows ->
  (forall x x', P x x' -> ri_id x' = ri_id x) ->
  ri_id r' = ri_id r ->
  NoDup (map ri_id rows0) ->
  In r rows0 ->
  (forall x x', P x x' -> x <> r -> Q x x') ->
  (forall x', P r x' -> Q r r') ->
  Forall2 Q rows0 (save_row ri_id r' rows).
Proof.
  intros Hf Hid Hr' Hnd Hin Hother Hrow.
  induction Hf as [|x x' l0 l Hp Hf IH]; [destruct Hin|].
  simpl. inversion Hnd as [|? ? Hnin Hnd']; subst.
  destruct (ri_id x' =? ri_id r') eqn:E.
  - apply Z.eqb_eq in E.
    assert (Hx : x = r).
    { apply (NoDup_map_eq ri_id (x :: l0) x r Hnd); [now left|exact Hin|].
      rewrite <- (Hid _ _ Hp). congruence. }
    subst x. constructor; [now apply (Hrow x')|].
    apply (Forall2_impl_In P Q _ _ Hf). intros y y' Hy Hpy.
    apply Hother; [exact Hpy|]. intros ->. apply Hnin. now apply in_map.
  - apply Z.eqb_neq in E.
    assert (Hx : x <> r).
    { intros ->. apply E. rewrite (Hid _ _ Hp). now symmetry. }
    constructor; [now apply Hother|].
    apply IH; [exact Hnd'|]. destruct Hin as [Hin|Hin]; [contradiction|exact Hin].
Qed.

Lemma NoDup_map_NoDup {A} (f : A -> Z) l : NoDup (map f l) -> NoDup l.
Proof.
  induction l as [|x l IH]; simpl; intros H; [constructor|].
  inversion H as [|? ? Hnin Hnd]; subst. constructor; [|now apply IH].
  intros Hin. apply Hnin. now apply in_map.
Qed.

Lemma dispatch_loop_rows env W rows0 rs :
  NoDup (map ri_id rows0) ->
  NoDup rs ->
  (forall r, In r rs -> In r rows0) ->
  forall outlog st,
    Forall2 (fun x x' => row_step x x' /\ (In x rs -> x' = x))
            rows0 (runinfos (st_db st)) ->
    Forall2 row_step rows0
            (runinfos (st_db (fst (dispatch_loop env W rs outlog st)))).
Proof.
  intros Hnd0. induction rs as [|r rest IH]; intros Hnd Hsub outlog st Hinv.
  - simpl. eapply Forall2_impl_In; [exact Hinv|]. now intros x x' _ [H _].
  - rewrite dispatch_loop_cons. inversion Hnd as [|? ? Hnin Hnd']; subst.
    assert (Hnext :
              Forall2 (fun x x' => row_step x x' /\ (In x rest -> x' = x)) rows0
                      (runinfos (st_db (fst (dispatch_one env W r st))))).
    { destruct (dispatch_one_effect env W r st) as [E|[Hp E]].
      - rewrite E. eapply Forall2_impl_In; [exact Hinv|].
        intros x x' _ [H1 H2]. split; [exact H1|]. intros H. apply H2. now right.
      - rewrite E, attempt_state.
        set (me := env_mail env (List.length (st_calls st))).
        assert (Hkeep : Forall2 (fun x x' => row_step x x' /\ (In x rest -> x' = x))
                                rows0 (runinfos (st_db st))).
        { eapply Forall2_impl_In; [exact Hinv|].
          intros x x' _ [H1 H2]. split; [exact H1|]. intros H. apply H2. now right. }
        assert (Hsave : forall r',
                   ri_id r' = ri_id r -> row_step r r' ->
                   Forall2 (fun x x' => row_step x x' /\ (In x rest -> x' = x))
                           rows0 (save_row ri_id r' (runinfos (st_db st)))).
        { intros r' Hid Hstep.
          apply (save_row_Forall2
                   (fun x x' => row_step x x' /\ (In x (r :: rest) -> x' = x))
                   _ rows0 (runinfos (st_db st)) r r' Hinv).
          - intros x x' [H _]. now apply row_step_id.
          - exact Hid.
          - exact Hnd0.
          - apply Hsub. now left.
          - intros x x' [H1 H2] Hne. split; [exact H1|].
            intros H. apply H2. now right.
          - intros x' _. split; [exact Hstep|]. intros H. contradiction. }
        destruct (delivery_outcome st r me) as [|reason|e]; simpl.
        + apply Hsave; [reflexivity|]. right. left.
          split; [now apply (passes_not_suppressed (st_db st) W)|].
          now exists (me_now me).
        + apply Hsave; [reflexivity|]. right. right. now exists reason.
        + exact Hkeep. }
    destruct (dispatch_one env W r st) as [st' [lines|e]]; simpl in Hnext.
    + apply IH; [exact Hnd'| |exact Hnext]. intros x Hx. apply Hsub. now right.
    + simpl. eapply Forall2_impl_In; [exact Hnext|]. now intros x x' _ [H _].
Qed.

Lemma Forall2_refl {A} (P : A -> A -> Prop) l :
  (forall x, P x x) -> Forall2 P l l.
Proof. intros H. induction l; constructor; auto. Qed.

(** X12. With distinct primary keys, the table of [RunInfo] rows after
    the dispatch is the table before, row by row: key, subject, run,
    token, question set and time of creation are the same, and either
    count and time of sending are the same, or the row was not
    suppressed and now counts one e-mail more, with a time of sending
    and the status [OK, accepted by server].  No count is reset or
    lowered and none goes up by more than one. *)
Theorem batch_changes_a_row_at_most_once env request questionnaire st :
  NoDup (map ri_id (runinfos (st_db st))) ->
  Forall2
    (fun x x' =>
       (ri_id x', ri_subject x', ri_run x', ri_random x', ri_questionset x',
        ri_created x')
       = (ri_id x, ri_subject x, ri_run x, ri_random x, ri_questionset x,
          ri_created x)
       /\ ((ri_emailcount x' = ri_emailcount x /\ ri_emailsent x' = ri_emailsent x)
           \/ (ri_emailcount x' = ri_emailcount x + 1
               /\ ri_emailcount x <> -1
               /\ (exists t, ri_emailsent x' = Some t)
               /\ ri_lastemailerror x' = Some "OK, accepted by server")))
    (runinfos (st_db st))
    (runinfos (st_db (fst (dispatch env request questionnaire st)))).
Proof.
  intros Hnd. rewrite dispatch_state.
  assert (H : Forall2 row_step (runinfos (st_db st))
                (runinfos (st_db (fst (dispatch_loop env (env_time env - ONE_WEEK)
                                         (email_runinfos (st_db st) questionnaire)
                                         [] st))))).
  { apply dispatch_loop_rows.
    - exact Hnd.
    - unfold email_runinfos. apply NoDup_filter.
      now apply (NoDup_map_NoDup ri_id).
    - intros r Hr. unfold email_runinfos in Hr. now apply filter_In in Hr.
    - apply Forall2_refl. intros x. split; [now left|reflexivity]. }
  eapply Forall2_impl_In; [exact H|].
  intros x x' _ [->|[(Hne & now & ->)|(reason & ->)]].
  - split; [reflexivity|]. left. now split.
  - split; [reflexivity|]. right.
    unfold mark_accepted.
    cbn [ri_emailcount ri_emailsent ri_lastemailerror set_lastemailerror
         set_emailsent set_emailcount].
    repeat split; [lia|exact Hne|now exists now].
  - split; [reflexivity|]. left. now split.
Qed.

(* ------------------------------------------------------------------ *)
(** ** A template without a second line *)

Lemma split_first_line_Some s a b :
  split_first_line s = Some (a, b) <->
  s = a +++ String newline b /\ ~ In newline (list_ascii_of_string a).
Proof.
  revert a b. induction s as [|c s IH]; intros a b; simpl.
  - split; [discriminate|]. intros [H _]. destruct a; discriminate H.
  - destruct (Ascii.eqb c newline) eqn:E.
    + apply Ascii.eqb_eq in E. subst c. split.
      * intros H. inversion H; subst. simpl. split; [reflexivity|tauto].
      * intros [H Hn]. destruct a as [|c' a]; simpl in H.
        -- now inversion H.
        -- inversion H; subst. exfalso. apply Hn. now left.
    + apply Ascii.eqb_neq in E. split.
      * destruct (split_first_line s) as [[l r]|] eqn:Hs; [|discriminate].
        intros H. inversion H; subst.
        destruct (proj1 (IH l b) eq_refl) as [-> Hn]. simpl. split; [reflexivity|].
        intros [H1|H1]; [congruence|contradiction].
      * intros [H Hn]. destruct a as [|c' a]; simpl in H.
        -- inversion H. congruence.
        -- inversion H; subst.
           rewrite (proj2 (IH a b)); [reflexivity|].
           split; [reflexivity|]. intros H1. apply Hn. now right.
Qed.

Lemma split_first_line_None s :
  split_first_line s = None <-> ~ In newline (list_ascii_of_string s).
Proof.
  induction s as [|c s IH]; simpl.
  - tauto.
  - destruct (Ascii.eqb c newline) eqn:E.
    + apply Ascii.eqb_eq in E. split; [discriminate|]. intros H. exfalso. auto.
    + apply Ascii.eqb_neq in E.
      destruct (split_first_line s) as [[l r]|].
      * split; [discriminate|]. intros H. exfalso.
        assert (Hn : ~ In newline (list_ascii_of_string s)) by tauto.
        apply IH in Hn. discriminate Hn.
      * split; [|reflexivity]. intros _ [H|H]; [congruence|].
        now apply (proj1 IH).
Qed.

(** X14. When the template renders to a text without newline, line 82
    raises [ValueError] before the mail connection is used:
    [_send_email] saves nothing, and the loop logs the exception for
    this recipient and goes on with the next. *)
Theorem template_of_one_line_is_never_mailed
        env W r rest outlog st run subject email :
  find_run (st_db st) r = Ret run ->
  find_subject (st_db st) r = Ret subject ->
  selects W run r = true ->
  me_prepare (env_mail env (List.length (st_calls st))) = Ret email ->
  ~ In newline (list_ascii_of_string email) ->
  _send_email env r st
  = (entered r st,
     Raise (mkExc ValueError "not enough values to unpack (expected 2, got 1)"))
  /\ st_db (entered r st) = st_db st
  /\ dispatch_loop env W (r :: rest) outlog st
     = dispatch_loop env W rest
         (outlog ++ ["Exception: [" +++ run_runid run +++ "] "
                       +++ s_surname subject
                       +++ ": not enough values to unpack (expected 2, got 1)"])
         (entered r st).
Proof.
  intros Hrun Hsub Hsel Hprep Hnl.
  apply split_first_line_None in Hnl.
  assert (Ho : delivery_outcome st r (env_mail env (List.length (st_calls st)))
               = Failed (mkExc ValueError
                           "not enough values to unpack (expected 2, got 1)")).
  { unfold delivery_outcome. now rewrite Hsub, Hprep, Hnl. }
  split; [|split; [reflexivity|]].
  - rewrite send_email_eq. now rewrite Ho.
  - rewrite dispatch_loop_cons, (dispatch_one_selected env W r st run Hrun Hsel).
    rewrite (attempt_eq env r st run subject Hrun Hsub). now rewrite Ho.
Qed.

(* ------------------------------------------------------------------ *)
(** ** The random token and the next run *)

Lemma string_of_uint_no_z d : no_z (NilEmpty.string_of_uint d).
Proof.
  unfold no_z. induction d; simpl; try tauto;
    intros [H|H]; try discriminate H; contradiction.
Qed.

Lemma str_of_Z_no_z z : no_z (str_of_Z z).
Proof.
  unfold str_of_Z, NilZero.string_of_int, NilZero.string_of_uint.
  destruct (Z.to_int z) as [d|d]; destruct d; unfold no_z; simpl;
    repeat (intros [H|H]; [discriminate H|revert H]);
    try tauto; apply string_of_uint_no_z.
Qed.

Lemma append_z_inj s1 s2 t1 t2 :
  no_z s1 -> no_z s2 ->
  s1 +++ String "z" t1 = s2 +++ String "z" t2 -> s1 = s2 /\ t1 = t2.
Proof.
  revert s2. induction s1 as [|c s1 IH]; intros [|c2 s2] H1 H2 H; simpl in H.
  - now inversion H.
  - inversion H; subst. exfalso. apply H2. now left.
  - inversion H; subst. exfalso. apply H1. now left.
  - inversion H; subst.
    destruct (IH s2) as [-> ->]; auto.
    + intros Hin. apply H1. now right.
    + intros Hin. apply H2. now right.
Qed.

(** The decimal of an integer has a digit. *)
Lemma to_int_proper z :
  Z.to_int z <> Decimal.Pos Decimal.Nil /\ Z.to_int z <> Decimal.Neg Decimal.Nil.
Proof.
  destruct z as [|p|p]; simpl; split; try discriminate;
    intros H; inversion H as [H1]; now apply (Unsigned.to_uint_nonnil p).
Qed.

Lemma str_of_Z_inj a b : str_of_Z a = str_of_Z b -> a = b.
Proof.
  unfold str_of_Z. intros H. apply DecimalZ.to_int_inj.
  destruct (to_int_proper a) as [A1 A2], (to_int_proper b) as [B1 B2].
  pose proof (NilZero.isi _ A1 A2) as Ha.
  pose proof (NilZero.isi _ B1 B2) as Hb.
  rewrite H in Ha. rewrite Ha in Hb. now inversion Hb.
Qed.

(** X17. The tokens of line 40 of two subjects with different ids are
    different, whatever the digests: the part before the first [z] is
    the id in decimal. *)
Theorem tokens_of_different_subjects_differ env1 env2 s1 s2 :
  s_id s1 <> s_id s2 -> _new_random env1 s1 <> _new_random env2 s2.
Proof.
  intros Hne H. unfold _new_random in H. simpl in H.
  apply append_z_inj in H; try apply str_of_Z_no_z.
  destruct H as [H _]. now apply str_of_Z_inj in H.
Qed.

(** X18. Lines 59 to 62, on a date of the calendar before the year
    9999: the new date exists in the calendar, is in the next year and
    in the same month, on the same day or, for 29 February, on the
    28th.  In the year 9999 the constructor raises [ValueError]. *)
Theorem nextrun_advances_to_a_calendar_date d :
  valid_date d = true ->
  (year d < MAXYEAR ->
   exists d',
     advance_nextrun d = Ret d'
     /\ valid_date d' = true
     /\ year d' = year d + 1
     /\ month d' = month d
     /\ (day d' = day d \/ (month d = 2 /\ day d = 29 /\ day d' = 28)))
  /\ (year d = MAXYEAR ->
      advance_nextrun d = Raise (mkExc ValueError "year 10000 is out of range")).
Proof.
  intros Hv. split.
  - intros Hy.
    assert (Hv' := Hv). unfold valid_date, MINYEAR, MAXYEAR in Hv', Hy.
    repeat (apply andb_prop in Hv'; destruct Hv' as [Hv' ?]).
    repeat match goal with
           | H : (_ <=? _) = true |- _ => apply Z.leb_le in H
           end.
    destruct ((month d =? 2) && (day d =? 29)) eqn:E.
    + apply andb_prop in E. destruct E as [Em Ed].
      apply Z.eqb_eq in Em, Ed.
      exists (mkDate (year d + 1) 2 28).
      split; [apply advance_nextrun_leap_day; unfold MAXYEAR; auto; lia|].
      split; [|simpl; repeat split; auto].
      unfold valid_date, MINYEAR, MAXYEAR, days_in_month. simpl.
      replace (1 <=? year d + 1) with true by (symmetry; apply Z.leb_le; lia).
      replace (year d + 1 <=? 9999) with true by (symmetry; apply Z.leb_le; lia).
      destruct (is_leap (year d + 1)); reflexivity.
    + exists (mkDate (year d + 1) (month d) (day d)).
      split; [apply advance_nextrun_other_day; auto|].
      split; [|simpl; auto].
      pose proof (advance_nextrun_other_day d Hv E Hy) as Ha.
      unfold advance_nextrun in Ha. rewrite E in Ha. unfold datetime in Ha.
      unfold valid_date. simpl.
      destruct (negb ((MINYEAR <=? year d + 1) && (year d + 1 <=? MAXYEAR)));
        [discriminate Ha|].
      destruct (negb ((1 <=? month d) && (month d <=? 12))) eqn:E2;
        [discriminate Ha|].
      destruct (negb ((1 <=? day d)
                      && (day d <=? days_in_month (year d + 1) (month d)))) eqn:E3;
        [discriminate Ha|].
      apply negb_false_iff in E2, E3.
      apply andb_prop in E2, E3. destruct E2 as [-> ->], E3 as [-> ->].
      replace (MINYEAR <=? year d + 1) with true
        by (symmetry; apply Z.leb_le; unfold MINYEAR; lia).
      replace (year d + 1 <=? MAXYEAR) with true
        by (symmetry; apply Z.leb_le; unfold MAXYEAR; lia).
      reflexivity.
  - intros Hy. unfold advance_nextrun, datetime. rewrite Hy.
    destruct ((month d =? 2) && (day d =? 29)); reflexivity.
Qed.

(* ------------------------------------------------------------------ *)
(** ** The job as the module stands *)

(** X6. Once lines 121 to 132 have succeeded, the job as the module
    stands has two courses: with no active subject due it is the
    dispatch of lines 137 to 156; with one or more it raises
    [NameError] at line 52 for the first of them, with nothing written
    and no e-mail sent. *)
Theorem job_ends_at_the_first_due_subject
        settings env request qname st questionnaire questionset :
  resolve settings request qname st = (st, Ret (questionnaire, questionset)) ->
  send_emails emails_globals settings env request qname st =
  match viable_subjects (st_db st) (env_today env) with
  | [] => dispatch env request questionnaire st
  | _ :: _ => (st, Raise (mkExc NameError "name 'Run' is not defined"))
  end.
Proof.
  intros Hres. rewrite send_emails_eq, Hres.
  destruct (viable_subjects (st_db st) (env_today env)) as [|s rest] eqn:Hdue.
  - unfold create_runs, bind, get_db. rewrite Hdue. reflexivity.
  - now rewrite (create_runs_NameError env questionset st s rest Hdue).
Qed.

(** X7. On every input, the job as the module stands leaves the
    subjects and the runs as they are and keeps the primary keys of the
    [RunInfo] rows: no [nextrun] is advanced, no [Run] and no [RunInfo]
    is created. *)
Theorem job_never_moves_a_subject settings env request qname st :
  let db := st_db st in
  let db' := st_db (fst (send_emails emails_globals settings env request qname st)) in
  subjects db' = subjects db
  /\ runs db' = runs db
  /\ map ri_id (runinfos db') = map ri_id (runinfos db).
Proof.
  intros db db'. unfold db'. rewrite send_emails_eq.
  pose proof (resolve_state settings request qname st) as Hst.
  destruct (resolve settings request qname st) as [st1 [[q qs]|e]];
    simpl in Hst; subst st1; [|now repeat split].
  destruct (viable_subjects (st_db st) (env_today env)) as [|s rest] eqn:Hdue.
  - unfold create_runs, bind, get_db. rewrite Hdue. simpl.
    destruct (dispatch_frame env request q st)
      as (H1 & H2 & _ & _ & H5).
    now repeat split.
  - rewrite (create_runs_NameError env qs st s rest Hdue). now repeat split.
Qed.

(* ------------------------------------------------------------------ *)
(** ** The report *)


(* ------------------------------------------------------------------ *)
(** ** The statements above on the sample stores *)

(** The rows of the sample store have four keys. *)
Lemma NoDup_sample_keys : NoDup (map ri_id (runinfos Sample.db0)).
Proof.
  simpl. repeat (constructor; [simpl; intuition discriminate|]). constructor.
Qed.

(** An instance of the theorem. *)
Lemma web_trigger_needs_the_code_witness :
  send_emails emails_globals Sample.job_settings Sample.env_ok
              (Some Cases.without_code) None Sample.st0
  = (Sample.st0, Raise (mkExc Http404 "")).
Proof.
  apply (web_trigger_needs_the_code emails_globals Sample.job_settings
           Sample.env_ok Cases.without_code None Sample.st0).
  intros c [H _]. discriminate H.
Defined.

(** An instance of the theorem. *)
Lemma web_call_acts_as_command_line_witness :
  fst (send_emails emails_globals Cases.web_settings Sample.env_ok
                   (Some Cases.with_code) None Sample.st0)
  = fst (send_emails emails_globals Cases.web_settings Sample.env_ok
                     None None Sample.st0).
Proof.
  exact (proj1 (web_call_acts_as_command_line emails_globals Cases.web_settings
                  Sample.env_ok Cases.with_code None Sample.st0 eq_refl)).
Defined.

(** An instance of the theorem. *)
Lemma questionnaire_name_is_required_witness :
  send_emails emails_globals Cases.bare_settings Sample.env_ok None (Some "")
              Sample.st0
  = (Sample.st0,
     Raise (mkExc PlainException "QUESTIONNAIRE_DEFAULT not in settings")).
Proof.
  exact (questionnaire_name_is_required emails_globals Cases.bare_settings
           Sample.env_ok None (Some "") Sample.st0 eq_refl eq_refl eq_refl).
Defined.

(** An instance of the theorem. *)
Lemma questionnaire_needs_question_sets_witness :
  send_emails emails_globals Sample.job_settings Sample.env_ok None
              (Some "exit-survey") Cases.st_two
  = (Cases.st_two,
     Raise (mkExc PlainException
              "No questionsets for questionnaire 'exit-survey' (in settings.py)")).
Proof.
  refine (questionnaire_needs_question_sets emails_globals Sample.job_settings
            Sample.env_ok None (Some "exit-survey") Cases.st_two "exit-survey"
            Cases.empty_survey eq_refl eq_refl _ eq_refl eq_refl).
  discriminate.
Defined.

(** An instance of the theorem. *)
Lemma resolve_gives_first_question_set_witness :
  qs_sortid Sample.first_set <= qs_sortid Sample.second_set
  /\ qs_questionnaire Sample.first_set = q_id Sample.survey.
Proof.
  destruct (resolve_gives_first_question_set Sample.job_settings None None
              Sample.st0 Sample.st0 Sample.survey Sample.first_set eq_refl)
    as (_ & _ & _ & _ & Hq & Hmin).
  split; [|exact Hq].
  apply Hmin; [simpl; auto | reflexivity].
Defined.

(** An instance of the theorem. *)
Lemma job_ends_at_the_first_due_subject_witness :
  send_emails emails_globals Sample.job_settings Sample.env_ok None None
              Sample.st_due
  = match viable_subjects Sample.db_due (mkDate 2024 3 1) with
    | [] => dispatch Sample.env_ok None Sample.survey Sample.st_due
    | _ :: _ => (Sample.st_due, Raise (mkExc NameError "name 'Run' is not defined"))
    end.
Proof.
  exact (job_ends_at_the_first_due_subject Sample.job_settings Sample.env_ok
           None None Sample.st_due Sample.survey Sample.first_set eq_refl).
Defined.

(** An instance of the theorem. *)
Lemma batch_calls_the_rows_that_pass_witness :
  st_calls (fst (dispatch_loop Sample.env_ok Sample.weekago
                   (email_runinfos Sample.db0 Sample.survey) [] Sample.st0))
  = [Sample.ri_old; Sample.ri_new].
Proof.
  exact (batch_calls_the_rows_that_pass Sample.env_ok Sample.weekago
           (email_runinfos Sample.db0 Sample.survey) [] Sample.st0
           ["[2023] Turing, Alan: OK"; "[2023] Hopper, Grace: OK"] eq_refl).
Defined.

(** An instance of the theorem. *)
Lemma rows_that_do_not_pass_are_untouched_witness :
  In Sample.ri_off
     (runinfos (st_db (fst (dispatch Sample.env_ok None Sample.survey Sample.st0)))).
Proof.
  apply (rows_that_do_not_pass_are_untouched Sample.env_ok None Sample.survey
           Sample.st0 Sample.ri_off NoDup_sample_keys).
  - simpl. auto.
  - intros _. reflexivity.
Defined.

(** An instance of the theorem. *)
Lemma batch_changes_a_row_at_most_once_witness :
  Forall2
    (fun x x' =>
       (ri_id x', ri_subject x', ri_run x', ri_random x', ri_questionset x',
        ri_created x')
       = (ri_id x, ri_subject x, ri_run x, ri_random x, ri_questionset x,
          ri_created x)
       /\ ((ri_emailcount x' = ri_emailcount x /\ ri_emailsent x' = ri_emailsent x)
           \/ (ri_emailcount x' = ri_emailcount x + 1
               /\ ri_emailcount x <> -1
               /\ (exists t, ri_emailsent x' = Some t)
               /\ ri_lastemailerror x' = Some "OK, accepted by server")))
    (runinfos Sample.db0)
    (runinfos (st_db (fst (dispatch Sample.env_ok None Sample.survey Sample.st0)))).
Proof.
  exact (batch_changes_a_row_at_most_once Sample.env_ok None Sample.survey
           Sample.st0 NoDup_sample_keys).
Defined.

(** An instance of the theorem. *)
Lemma send_email_writes_its_row_only_witness :
  filter (fun x => ri_id x =? 2)
         (runinfos (st_db (fst (_send_email Sample.env_ok Sample.ri_new Sample.st0))))
  = [Sample.ri_off].
Proof.
  destruct (send_email_writes_its_row_only Sample.env_ok Sample.ri_new Sample.st0
              (fst (_send_email Sample.env_ok Sample.ri_new Sample.st0))
              (snd (_send_email Sample.env_ok Sample.ri_new Sample.st0)) eq_refl)
    as (_ & _ & H & _).
  rewrite (H 2); [reflexivity|discriminate].
Defined.

(** An instance of the theorem. *)
Lemma not_resent_within_the_week_witness :
  dispatch_one Cases.env_later (env_time Cases.env_later - ONE_WEEK)
               (mark_accepted Sample.ri_new Sample.now) Sample.st0
  = (Sample.st0, Ret []).
Proof.
  destruct (not_resent_within_the_week Sample.env_ok Sample.ri_new Sample.st0
              (saved (mark_accepted Sample.ri_new Sample.now)
                     (entered Sample.ri_new Sample.st0))
              (mark_accepted Sample.ri_new Sample.now)
              Cases.env_later Sample.st0 eq_refl)
    as [H|(e & _ & H)].
  - discriminate.
  - discriminate.
  - exact H.
  - discriminate H.
Defined.

(** An instance of the theorem. *)
Lemma refused_delivery_is_tried_again_witness :
  dispatch_one Cases.env_later (env_time Cases.env_later - ONE_WEEK)
               (set_lastemailerror Sample.ri_new (Some "SMTP Recipient Refused"))
               Sample.st0
  = attempt Cases.env_later
            (set_lastemailerror Sample.ri_new (Some "SMTP Recipient Refused"))
            Sample.st0.
Proof.
  refine (refused_delivery_is_tried_again Sample.env_refused Sample.weekago
            Sample.ri_new Sample.st0
            (saved (set_lastemailerror Sample.ri_new (Some "SMTP Recipient Refused"))
                   (entered Sample.ri_new Sample.st0))
            (set_lastemailerror Sample.ri_new (Some "SMTP Recipient Refused"))
            Sample.run2023 (env_time Cases.env_later - ONE_WEEK)
            Cases.env_later Sample.st0 eq_refl eq_refl eq_refl _ eq_refl).
  discriminate.
Defined.

(** An instance of the theorem. *)
Lemma template_of_one_line_is_never_mailed_witness :
  _send_email Sample.env_broken Sample.ri_new Sample.st0
  = (entered Sample.ri_new Sample.st0,
     Raise (mkExc ValueError "not enough values to unpack (expected 2, got 1)")).
Proof.
  refine (proj1 (template_of_one_line_is_never_mailed Sample.env_broken
                   Sample.weekago Sample.ri_new [] [] Sample.st0 Sample.run2023
                   Sample.alan "a template of one line"
                   eq_refl eq_refl eq_refl eq_refl _)).
  simpl. intuition discriminate.
Defined.

(** An instance of the theorem. *)
Lemma tokens_of_different_subjects_differ_witness :
  _new_random Sample.env_ok Sample.alan <> _new_random Sample.env_ok Sample.grace.
Proof.
  apply (tokens_of_different_subjects_differ Sample.env_ok Sample.env_ok
           Sample.alan Sample.grace).
  discriminate.
Defined.

(** An instance of the theorem. *)
Lemma nextrun_advances_to_a_calendar_date_witness :
  exists d',
    advance_nextrun (mkDate 2024 2 29) = Ret d'
    /\ valid_date d' = true
    /\ year d' = 2025
    /\ month d' = 2
    /\ (day d' = 29 \/ (2 = 2 /\ 29 = 29 /\ day d' = 28)).
Proof.
  refine (proj1 (nextrun_advances_to_a_calendar_date (mkDate 2024 2 29) eq_refl) _).
  reflexivity.
Defined.

